(** * Steel plate calculator: geometry, weight, DXF outline and preview data

    A shallow embedding of [teste12.py].  The script asks for the width,
    length and thickness of a rectangular steel plate (in mm) and a steel
    grade, builds the eight corners and twelve triangles of the box, fills an
    STL mesh with them, writes the outline of the bottom face to a DXF
    drawing, derives the weight from the volume and the density of the grade,
    and turns the mesh into the coordinate and index lists of a 3D preview.

    Layout of this file:
    - [Number]: the arithmetic the script uses, with two instances, the
      binary64 floats Python computes with and the exact rationals;
    - [Py]: the pieces of Python and NumPy the script relies on (indexing
      with [IndexError], [range], [enumerate], [for] loops over a state);
    - [Plate] and [Script]: the functions and the top level of the script,
      in the order of the source;
    - [Normals]: the cross product and what it means for a normal to point
      out of the box;
    - the facts proved about them. *)

From Stdlib Require Import ZArith QArith List String Bool Lia Lqa Floats.
Import ListNotations.

Local Open Scope Z_scope.
Set Warnings "-inexact-float".  (* 7.85 and the like are not binary64 values; the nearest one is meant, as in Python *)

(** ** Numbers

    The script is duck-typed: [calculate_volume] multiplies whatever it is
    given.  Streamlit's [number_input] with [min_value=0.0] hands it Python
    floats, that is IEEE 754 binary64 values, so every product and quotient
    is rounded.  The arithmetic is kept behind a small interface so that the
    very same definitions can be run on binary64 floats and on exact
    rationals (the reading of the formulas over the reals). *)

Class Number (T : Type) : Type := {
  (** the value of an integer literal ([0], [1000]) or of a float literal
      with an integral value ([1000.0]) *)
  num_lit : Z -> T;
  (** [a * b] *)
  num_mul : T -> T -> T;
  (** [a / b]; Python raises [ZeroDivisionError] on a zero divisor, the
      script only ever divides by the constant [1000] *)
  num_div : T -> T -> T
}.

Declare Scope num_scope.
Delimit Scope num_scope with num.
Notation "a * b" := (num_mul a b) : num_scope.
Notation "a / b" := (num_div a b) : num_scope.

(** Binary64: the kernel's primitive floats, which are IEEE 754 binary64
    with round-to-nearest-even, exactly Python's [float].  An integer literal
    is converted with correct rounding. *)
Definition float_of_Z (z : Z) : float :=
  SF2Prim (binary_normalize prec emax z 0 false).

#[export] Instance float_Number : Number float := {
  num_lit := float_of_Z;
  num_mul := PrimFloat.mul;
  num_div := PrimFloat.div
}.

(** Binary32, as a binary64 value: the nearest single-precision number,
    ties to even, infinity beyond its range; zeros, infinities and NaN are
    kept.  The record type of the STL library, [mesh.Mesh.dtype], is not part
    of the script; it declares [vectors] as float32, and NumPy converts a
    coordinate this way when it is assigned into the mesh. *)
Definition float32 (x : float) : float :=
  match Prim2SF x with
  | S754_finite s m e => SF2Prim (binary_round 24 128 s m e)
  | _ => x
  end.

(** Exact rationals. *)
#[export] Instance Q_Number : Number Q := {
  num_lit := inject_Z;
  num_mul := Qmult;
  num_div := Qdiv
}.

(** ** The Python and NumPy operations the script uses *)

Module Py.

(** Exceptions ([IndexError], [KeyError], [ValueError]) abort the
    computation: [None]. *)
Definition bind {A B : Type} (m : option A) (k : A -> option B) : option B :=
  match m with
  | Some a => k a
  | None => None
  end.

Declare Scope py_scope.
Delimit Scope py_scope with py.
Notation "x <- m ;; k" := (bind m (fun x => k))
  (at level 61, m at next level, right associativity) : py_scope.
Notation "' p <- m ;; k" := (bind m (fun p => k))
  (at level 61, p pattern, m at next level, right associativity) : py_scope.
Local Open Scope py_scope.

(** Indexing a sequence of length [n] with [i]: [0 <= i < n] counts from the
    front, [-n <= i < 0] from the back, anything else is an [IndexError]. *)
Definition normalize_index (n : nat) (i : Z) : option nat :=
  if (0 <=? i) && (i <? Z.of_nat n) then Some (Z.to_nat i)
  else if (- Z.of_nat n <=? i) && (i <? 0) then Some (Z.to_nat (Z.of_nat n + i))
  else None.

(** [a[i]] *)
Definition getitem {A : Type} (a : list A) (i : Z) : option A :=
  k <- normalize_index (List.length a) i ;; nth_error a k.

Fixpoint replace_nth {A : Type} (k : nat) (v : A) (a : list A) : list A :=
  match a, k with
  | [], _ => []
  | _ :: rest, O => v :: rest
  | h :: rest, S k' => h :: replace_nth k' v rest
  end.

(** [a[i] = v] *)
Definition setitem {A : Type} (a : list A) (i : Z) (v : A) : option (list A) :=
  k <- normalize_index (List.length a) i ;; Some (replace_nth k v a).

(** [range(start, stop, step)] for a positive [step] (the script uses the
    steps 1 and 3): [start, start + step, ...] below [stop]. *)
Definition range3 (start stop step : Z) : list Z :=
  let count := if start <? stop then (stop - start - 1) / step + 1 else 0 in
  map (fun n => start + Z.of_nat n * step) (seq 0 (Z.to_nat count)).

(** [range(stop)] *)
Definition range (stop : Z) : list Z := range3 0 stop 1.

(** [enumerate(xs)] *)
Definition enumerate {A : Type} (xs : list A) : list (Z * A) :=
  combine (map Z.of_nat (seq 0 (List.length xs))) xs.

(** [for x in xs: body], where the body updates a state and may raise. *)
Fixpoint for_each {A S : Type} (xs : list A) (body : A -> S -> option S) (s : S)
  : option S :=
  match xs with
  | [] => Some s
  | x :: rest => s' <- body x s ;; for_each rest body s'
  end.

(** [d[key]] on a dict, kept as an association list in insertion order
    ([list(d.keys())] feeds the select box); a missing key is a [KeyError]. *)
Fixpoint dict_get {V : Type} (d : list (string * V)) (key : string) : option V :=
  match d with
  | [] => None
  | (k, v) :: rest => if String.eqb k key then Some v else dict_get rest key
  end.

Definition dict_keys {V : Type} (d : list (string * V)) : list string :=
  map fst d.

End Py.

Import Py.
Local Open Scope py_scope.

(** ** The script *)

(** [steel_types]: the principal steel grades and their densities in g/cm³. *)
Definition steel_types : list (string * float) :=
  [ ("SAE 1020"%string, 7.85%float);
    ("SAE 1045"%string, 7.85%float);
    ("ASTM A36"%string, 7.85%float);
    ("SAE 4140"%string, 7.85%float);
    ("SAE 8620"%string, 7.85%float);
    ("AISI 304"%string, 8.00%float);
    ("AISI 316"%string, 7.98%float);
    ("SAE 4340"%string, 7.85%float);
    ("SAE 1212"%string, 7.85%float);
    ("AISI 420"%string, 7.70%float) ].

Section Plate.

(** [T] is the type of the dimensions and of the vertex coordinates.

    [C] is the type of a coordinate stored in the mesh: the record type
    [mesh.Mesh.dtype] belongs to the STL library, not to the script, and
    fixes how a coordinate is kept in [vectors].  [store] is the conversion
    an assignment into [vectors] performs and [czero] the value [np.zeros]
    fills the array with. *)
Context {T : Type} `{Number T}.
Context {C : Type} (store : T -> C) (czero : C).

Local Open Scope num_scope.

(** [calculate_volume]: the volume of the part, in mm³. *)
Definition calculate_volume (width length thickness : T) : T :=
  width * length * thickness.

(** [calculate_weight]: the weight from the density of the steel, in grams
    (1 cm³ = 1000 mm³). *)
Definition calculate_weight (volume density : T) : T :=
  let volume_cm3 := volume / num_lit 1000 in
  volume_cm3 * density.

(** The weight shown to the user, in kg: lines 136 and 138 of the script,
    [calculate_weight(volume, density) / 1000]. *)
Definition weight_kg (width length thickness density : T) : T :=
  let volume := calculate_volume width length thickness in
  calculate_weight volume density / num_lit 1000.

(** *** [create_plate] *)

(** The array [vertices]: eight rows of three coordinates.  The integer
    zeros become zeros of the coordinate type when NumPy builds the array. *)
Definition plate_vertices (width length thickness : T) : list (list T) :=
  let o := num_lit 0 in
  [ [o; o; o];
    [width; o; o];
    [width; length; o];
    [o; length; o];
    [o; o; thickness];
    [width; o; thickness];
    [width; length; thickness];
    [o; length; thickness] ].

(** The array [faces]: twelve rows of three vertex indices. *)
Definition plate_faces : list (list Z) :=
  [ [0; 3; 1]; [1; 3; 2];    (* bottom face *)
    [4; 5; 7]; [5; 6; 7];    (* top face *)
    [0; 1; 4]; [1; 5; 4];    (* side 1 *)
    [1; 2; 5]; [2; 6; 5];    (* side 2 *)
    [2; 3; 6]; [3; 7; 6];    (* side 3 *)
    [3; 0; 7]; [0; 4; 7] ]%Z. (* side 4 *)

(** The mesh object.  Of the fields of its record type the script touches
    [vectors] only: one 3x3 block of stored coordinates per triangle. *)
Record Mesh : Type := { vectors : list (list (list C)) }.

(** [mesh.Mesh(np.zeros(n, dtype=mesh.Mesh.dtype))] *)
Definition mesh_zeros (n : nat) : Mesh :=
  {| vectors := repeat (repeat (repeat czero 3) 3) n |}.

(** Assigning the row [src] over the row [dst]: the shapes must agree, a
    row of one entry is broadcast, any other shape is a [ValueError]. *)
Definition assign_row (dst : list C) (src : list T) : option (list C) :=
  if Nat.eqb (List.length src) (List.length dst) then Some (map store src)
  else match src with
       | [v] => Some (map (fun _ => store v) dst)
       | _ => None
       end.

(** [m.vectors[i][j] = row] *)
Definition set_vector (m : Mesh) (i j : Z) (row : list T) : option Mesh :=
  triangle <- getitem (vectors m) i ;;
  old <- getitem triangle j ;;
  new <- assign_row old row ;;
  triangle' <- setitem triangle j new ;;
  vectors' <- setitem (vectors m) i triangle' ;;
  Some {| vectors := vectors' |}.

(** The body of the inner loop: [plate_mesh.vectors[i][j] = vertices[face[j], :]] *)
Definition fill_slot (vertices : list (list T)) (i : Z) (face : list Z)
  (j : Z) (m : Mesh) : option Mesh :=
  index <- getitem face j ;;
  row <- getitem vertices index ;;
  set_vector m i j row.

(** The two nested loops of [create_plate]. *)
Definition fill_mesh (vertices : list (list T)) (faces : list (list Z))
  (m : Mesh) : option Mesh :=
  for_each (enumerate faces)
    (fun '(i, face) m => for_each (range 3) (fill_slot vertices i face) m) m.

(** [create_plate(width, length, thickness)] returns the mesh and the
    vertex array. *)
Definition create_plate (width length thickness : T)
  : option (Mesh * list (list T)) :=
  let vertices := plate_vertices width length thickness in
  let faces := plate_faces in
  let plate_mesh := mesh_zeros (List.length faces) in
  plate_mesh <- fill_mesh vertices faces plate_mesh ;;
  Some (plate_mesh, vertices).

(** The 3x3 block one expects for the triangle [face]: the stored rows of
    its three vertices, in the order of the face.  Not part of the script;
    used to state what the filling loop leaves in [vectors]. *)
Definition triangle_of (vertices : list (list T)) (face : list Z)
  : list (list C) :=
  map (fun index => map store (nth (Z.to_nat index) vertices [])) face.

(** *** [create_dxf_from_numpy] *)

(** A LINE entity of the drawing, with the two points handed to [add_line]. *)
Record Line : Type := { line_start : list T; line_end : list T }.

(** The drawing: its format version and the entities of its model space,
    in the order they were added. *)
Record Drawing : Type := { dxfversion : string; modelspace : list Line }.

(** [ezdxf.new(dxfversion=...)] *)
Definition ezdxf_new (version : string) : Drawing :=
  {| dxfversion := version; modelspace := [] |}.

(** [msp.add_line(p, q)]: the drawing library takes a point of two (or
    three) coordinates and raises a [TypeError] on any other; the script
    hands it slices [[:2]], which have two coordinates or fewer. *)
Definition add_line (p q : list T) (doc : Drawing) : option Drawing :=
  if Nat.eqb (List.length p) 2 && Nat.eqb (List.length q) 2
  then Some {| dxfversion := dxfversion doc;
               modelspace :=
                 modelspace doc ++ [ {| line_start := p; line_end := q |} ] |}
  else None.

(** What a file on disk holds: the saved mesh or the saved drawing. *)
Inductive File : Type :=
| StlFile (m : Mesh)
| DxfFile (doc : Drawing).

(** The files written so far, by name; saving overwrites. *)
Definition Disk : Type := list (string * File).

Definition write_file (name : string) (f : File) (disk : Disk) : Disk :=
  (name, f) :: filter (fun entry => negb (String.eqb (fst entry) name)) disk.

Definition read_file (name : string) (disk : Disk) : option File :=
  dict_get disk name.

(** The body of the loop: one line from vertex [i] to vertex [(i + 1) % 4],
    with the X and Y coordinates only ([p[:2]]). *)
Definition outline_segment (vertices : list (list T)) (i : Z) (doc : Drawing)
  : option Drawing :=
  start_point <- getitem vertices i ;;
  end_point <- getitem vertices ((i + 1) mod 4)%Z ;;
  add_line (firstn 2 start_point) (firstn 2 end_point) doc.

(** The drawing [create_dxf_from_numpy] builds before saving it. *)
Definition outline_drawing (vertices : list (list T)) : option Drawing :=
  for_each (range 4) (outline_segment vertices) (ezdxf_new "R2010").

(** [create_dxf_from_numpy(vertices, filename)] *)
Definition create_dxf_from_numpy (vertices : list (list T)) (filename : string)
  (disk : Disk) : option Disk :=
  doc <- outline_drawing vertices ;;
  Some (write_file filename (DxfFile doc) disk).

(** *** [mesh_to_plotly] *)

(** [vectors.reshape(-1, 3)]: the rows of all triangles, one after the other. *)
Definition reshape_rows (v : list (list (list C))) : list (list C) :=
  List.concat v.

(** [x, y, z = rows.T]: the three columns of an array of rows of three;
    anything else cannot be unpacked into three names. *)
Fixpoint unpack_columns (rows : list (list C))
  : option (list C * list C * list C) :=
  match rows with
  | [] => Some ([], [], [])
  | [a; b; c] :: rest =>
      '(xs, ys, zs) <- unpack_columns rest ;;
      Some (a :: xs, b :: ys, c :: zs)
  | _ => None
  end.

(** The [go.Mesh3d] trace. *)
Record Mesh3d : Type := {
  mesh_x : list C;
  mesh_y : list C;
  mesh_z : list C;
  mesh_i : list Z;
  mesh_j : list Z;
  mesh_k : list Z;
  color : string;
  opacity : T
}.

(** The layout set by [fig.update_layout]. *)
Record Layout : Type := {
  axes_visible : bool;
  aspectmode : string;
  fig_width : Z;
  fig_height : Z;
  margin : Z * Z * Z * Z
}.

Record Figure : Type := { data : list Mesh3d; layout : Layout }.

(** [mesh_to_plotly(plate_mesh, opacity_value)].  The figure constructor
    validates its arguments and rejects an opacity outside [0, 1]; the
    slider of the script delivers values of that range only, and the check
    is not part of this definition, which is about the coordinate and index
    lists. *)
Definition mesh_to_plotly (plate_mesh : Mesh) (opacity_value : T)
  : option Figure :=
  '(x, y, z) <- unpack_columns (reshape_rows (vectors plate_mesh)) ;;
  let i := range3 0 (Z.of_nat (List.length x)) 3 in
  let j := range3 1 (Z.of_nat (List.length y)) 3 in
  let k := range3 2 (Z.of_nat (List.length z)) 3 in
  Some {| data := [ {| mesh_x := x; mesh_y := y; mesh_z := z;
                       mesh_i := i; mesh_j := j; mesh_k := k;
                       color := "lightblue";
                       opacity := opacity_value |} ];
          layout := {| axes_visible := false;
                       aspectmode := "data";
                       fig_width := 700; fig_height := 700;
                       margin := (0, 0, 0, 0)%Z |} |}.

End Plate.

Arguments Mesh : clear implicits.
Arguments Line : clear implicits.
Arguments Drawing : clear implicits.
Arguments File : clear implicits.
Arguments Disk : clear implicits.
Arguments Mesh3d : clear implicits.
Arguments Figure : clear implicits.

(** *** The script's top level *)

(** The widgets' values on one run of the script. *)
Record Inputs : Type := {
  in_width : float;
  in_length : float;
  in_thickness : float;
  in_steel_type : string;
  in_opacity : float
}.

(** What survives a run: [st.session_state.plate_mesh], the files on disk,
    and the weight and drawing name of the success message last shown. *)
Record App (C : Type) : Type := {
  session_plate_mesh : option (Mesh C);
  disk : Disk float C;
  success : option (float * string)
}.
Arguments session_plate_mesh {C} _.
Arguments disk {C} _.
Arguments success {C} _.

Section Script.

Context {C : Type} (store : float -> C) (czero : C).

(** The state of a fresh session: no mesh, nothing written. *)
Definition app_start : App C :=
  {| session_plate_mesh := None; disk := []; success := None |}.

(** The body of [if st.button('Gerar Chapa'):]. *)
Definition on_generate (inp : Inputs) (app : App C) : option (App C) :=
  let width := in_width inp in
  let length := in_length inp in
  let thickness := in_thickness inp in
  (* the plate of the given dimensions *)
  '(plate, vertices) <- create_plate store czero width length thickness ;;
  (* volume and weight; the weight is converted from grams to kg *)
  let volume := calculate_volume width length thickness in
  density <- dict_get steel_types (in_steel_type inp) ;;
  let weight := (calculate_weight volume density / 1000)%float in
  (* [plate.save(stl_path)] *)
  let stl_path := "chapa.stl"%string in
  let disk1 := write_file stl_path (StlFile plate) (disk app) in
  (* the DXF file with the coordinates *)
  let dxf_path := "chapa.dxf"%string in
  disk2 <- create_dxf_from_numpy vertices dxf_path disk1 ;;
  (* the mesh goes into the session, the weight into the success message *)
  Some {| session_plate_mesh := Some plate;
          disk := disk2;
          success := Some (weight, dxf_path) |}.

(** The preview drawn when a mesh is in the session. *)
Definition render_preview (inp : Inputs) (app : App C)
  : option (option (Figure float C)) :=
  match session_plate_mesh app with
  | Some m => fig <- mesh_to_plotly m (in_opacity inp) ;; Some (Some fig)
  | None => Some None
  end.

End Script.

(** ** Normals of the triangles

    The STL format carries, for each triangle, the normal given by the
    right-hand rule on its corners in the order listed.  The orientation of
    the twelve faces is a statement about the geometry of the box, so it is
    read over the rationals: every finite float is a rational, and the cross
    product is taken exactly. *)

Module Normals.

Definition Vec3 : Type := (Q * Q * Q)%type.

(** A row of three coordinates as a point. *)
Definition as_point (row : list Q) : option Vec3 :=
  match row with
  | [px; py; pz] => Some (px, py, pz)
  | _ => None
  end.

Definition vsub (p q : Vec3) : Vec3 :=
  let '(px, py, pz) := p in
  let '(qx, qy, qz) := q in
  (px - qx, py - qy, pz - qz)%Q.

Definition cross (u v : Vec3) : Vec3 :=
  let '(ux, uy, uz) := u in
  let '(vx, vy, vz) := v in
  (uy * vz - uz * vy, uz * vx - ux * vz, ux * vy - uy * vx)%Q.

Definition dot (u v : Vec3) : Q :=
  let '(ux, uy, uz) := u in
  let '(vx, vy, vz) := v in
  (ux * vx + uy * vy + uz * vz)%Q.

(** [vertices[index]] as a point. *)
Definition corner (vertices : list (list Q)) (index : Z) : option Vec3 :=
  row <- getitem vertices index ;; as_point row.

(** The three corners of a face, in the order the face lists them. *)
Definition face_corners (vertices : list (list Q)) (face : list Z)
  : option (Vec3 * Vec3 * Vec3) :=
  match face with
  | [ia; ib; ic] =>
      a <- corner vertices ia ;;
      b <- corner vertices ib ;;
      c <- corner vertices ic ;;
      Some (a, b, c)
  | _ => None
  end.

(** The normal of a face: the cross product of the edges from its first
    corner to its second and to its third. *)
Definition face_normal (vertices : list (list Q)) (face : list Z)
  : option Vec3 :=
  '(a, b, c) <- face_corners vertices face ;;
  Some (cross (vsub b a) (vsub c a)).

(** The six sides of the box, named as in the comments of [faces]:
    bottom (z = 0), top (z = t), side 1 (y = 0), side 2 (x = w),
    side 3 (y = l), side 4 (x = 0). *)
Inductive Side : Type := Bottom | Top | Side1 | Side2 | Side3 | Side4.

(** The side each of the twelve triangles lies on. *)
Definition plate_sides : list Side :=
  [ Bottom; Bottom; Top; Top; Side1; Side1;
    Side2; Side2; Side3; Side3; Side4; Side4 ].

(** [n] is a nonzero vector along the axis leaving the box through [s]. *)
Definition points_out_of (s : Side) (n : Vec3) : Prop :=
  let '(nx, ny, nz) := n in
  match s with
  | Bottom => nx == 0 /\ ny == 0 /\ nz < 0
  | Top => nx == 0 /\ ny == 0 /\ 0 < nz
  | Side1 => nx == 0 /\ ny < 0 /\ nz == 0
  | Side2 => 0 < nx /\ ny == 0 /\ nz == 0
  | Side3 => nx == 0 /\ 0 < ny /\ nz == 0
  | Side4 => nx < 0 /\ ny == 0 /\ nz == 0
  end%Q.

(** The points of the box. *)
Definition in_box (w l t : Q) (p : Vec3) : Prop :=
  let '(px, py, pz) := p in
  (0 <= px <= w /\ 0 <= py <= l /\ 0 <= pz <= t)%Q.

(** [n], attached at the point [a] of the surface, points away from the
    box: no point of the box lies on the side [n] points to, and the centre
    of the box lies strictly behind. *)
Definition outward (w l t : Q) (a n : Vec3) : Prop :=
  (forall p, in_box w l t p -> dot n (vsub p a) <= 0)%Q /\
  (dot n (vsub (w / 2, l / 2, t / 2)%Q a) < 0)%Q.

End Normals.

(** ** One run of the script, and a session of runs

    Streamlit runs the script from top to bottom on every interaction: the
    widgets are read, the generate action runs when its button was pressed,
    and the preview and the two download buttons are shown when the session
    holds a mesh. *)

(** A download button: its label, the file opened for it, the name offered
    and the MIME type. *)
Record Download (C : Type) : Type := {
  dl_label : string;
  dl_data : File float C;
  dl_file_name : string;
  dl_mime : string
}.
Arguments dl_label {C} _.
Arguments dl_data {C} _.
Arguments dl_file_name {C} _.
Arguments dl_mime {C} _.

(** What one run shows: the success message, the chart, the download
    buttons. *)
Record Page (C : Type) : Type := {
  page_message : option (float * string);
  page_chart : option (Figure float C);
  page_downloads : list (Download C)
}.
Arguments page_message {C} _.
Arguments page_chart {C} _.
Arguments page_downloads {C} _.

Section Run.

Context {C : Type} (store : float -> C) (czero : C).

(** The two [with open(..., 'rb')] blocks; opening a file that does not
    exist raises [FileNotFoundError]. *)
Definition download_section (app : App C) : option (list (Download C)) :=
  match session_plate_mesh app with
  | None => Some []
  | Some _ =>
      stl <- read_file "chapa.stl" (disk app) ;;
      dxf <- read_file "chapa.dxf" (disk app) ;;
      Some [ {| dl_label := "Baixar Chapa STL"; dl_data := stl;
                dl_file_name := "chapa.stl";
                dl_mime := "application/octet-stream" |};
             {| dl_label := "Baixar Chapa DXF"; dl_data := dxf;
                dl_file_name := "chapa.dxf";
                dl_mime := "application/octet-stream" |} ]
  end.

(** One run: [pressed] tells whether the generate button was pressed. *)
Definition run_script (inp : Inputs) (pressed : bool) (app : App C)
  : option (App C * Page C) :=
  app1 <- (if pressed then on_generate store czero inp app else Some app) ;;
  chart <- render_preview inp app1 ;;
  downloads <- download_section app1 ;;
  Some (app1,
        {| page_message := if pressed then success app1 else None;
           page_chart := chart;
           page_downloads := downloads |}).

(** A session: the runs one after the other, each on the state the one
    before left. *)
Fixpoint run_session (events : list (Inputs * bool)) (app : App C)
  : option (App C) :=
  match events with
  | [] => Some app
  | (inp, pressed) :: rest =>
      '(app1, _) <- run_script inp pressed app ;;
      run_session rest app1
  end.

(** The session and the disk agree: when the session holds a mesh, it is
    the mesh of a plate, [chapa.stl] holds that mesh and [chapa.dxf] a
    drawing. *)
Definition session_matches_disk (app : App C) : Prop :=
  match session_plate_mesh app with
  | None => True
  | Some m =>
      (exists w l t, create_plate store czero w l t
                     = Some (m, plate_vertices w l t)) /\
      read_file "chapa.stl" (disk app) = Some (StlFile m) /\
      exists doc, read_file "chapa.dxf" (disk app) = Some (DxfFile doc)
  end.

End Run.

(** ** Shapes, slots and edges of a mesh *)

(** [m.vectors[i][j]] *)
Definition slot {C : Type} (m : Mesh C) (i j : Z) : option (list C) :=
  triangle <- getitem (vectors m) i ;; getitem triangle j.

(** The shape [(n, 3, 3)] of [vectors]: every triangle has three rows of
    three coordinates. *)
Definition shape_n33 {C : Type} (v : list (list (list C))) : bool :=
  forallb (fun triangle =>
             Nat.eqb (List.length triangle) 3 &&
             forallb (fun row => Nat.eqb (List.length row) 3) triangle) v.

(** The shape [(n, 3)] of an array of rows. *)
Definition shape_n3 {A : Type} (rows : list (list A)) : bool :=
  forallb (fun row => Nat.eqb (List.length row) 3) rows.

(** Every index of a face array is a front index into [n] vertices. *)
Definition faces_in_range (n : nat) (faces : list (list Z)) : bool :=
  forallb (forallb (fun index => (0 <=? index) && (index <? Z.of_nat n))) faces.

(** The rows [[a; b; c]] put together again from three columns. *)
Definition rows_of_columns {C : Type} (xs ys zs : list C) : list (list C) :=
  map (fun '(a, b, c) => [a; b; c]) (combine (combine xs ys) zs).

(** The directed edges of a face, in its winding order. *)
Definition face_edges (face : list Z) : list (Z * Z) :=
  match face with
  | [a; b; c] => [(a, b); (b, c); (c, a)]
  | _ => []
  end.

Definition directed_edges (faces : list (list Z)) : list (Z * Z) :=
  flat_map face_edges faces.

Definition edge_eqb (e f : Z * Z) : bool :=
  (fst e =? fst f) && (snd e =? snd f).

Definition count_edge (e : Z * Z) (edges : list (Z * Z)) : nat :=
  List.length (filter (edge_eqb e) edges).

(** A closed, consistently wound surface: every directed edge belongs to
    exactly one face and its reverse to exactly one face. *)
Definition closed_oriented (faces : list (list Z)) : bool :=
  let edges := directed_edges faces in
  forallb (fun e => Nat.eqb (count_edge e edges) 1 &&
                    Nat.eqb (count_edge (snd e, fst e) edges) 1) edges.

(** ** Volume enclosed by the faces and area enclosed by an outline

    Like the normals, these are measures of the geometry: they are taken
    exactly, on the vertex array and the face array as they are, and involve
    none of the arithmetic of the script. *)

Module Measure.

Import Normals.

(** Six times the signed volume of the tetrahedron from the origin to the
    triangle [a], [b], [c]. *)
Definition det3 (a b c : Vec3) : Q := dot a (cross b c).

(** The sum of [det3] over the faces, each with its corners in the order
    the face lists them. *)
Fixpoint det_sum (vertices : list (list Q)) (faces : list (list Z))
  : option Q :=
  match faces with
  | [] => Some 0%Q
  | face :: rest =>
      '(a, b, c) <- face_corners vertices face ;;
      s <- det_sum vertices rest ;;
      Some (det3 a b c + s)%Q
  end.

(** The volume enclosed by a closed surface wound outward (divergence
    theorem): one sixth of the sum of [det3] over its faces. *)
Definition enclosed_volume (vertices : list (list Q)) (faces : list (list Z))
  : option Q :=
  s <- det_sum vertices faces ;; Some (s / 6)%Q.

(** The shoelace term of a line from [(x1, y1)] to [(x2, y2)]. *)
Definition shoelace (seg : Line Q) : option Q :=
  match line_start seg, line_end seg with
  | [x1; y1], [x2; y2] => Some (x1 * y2 - x2 * y1)%Q
  | _, _ => None
  end.

Fixpoint shoelace_sum (segs : list (Line Q)) : option Q :=
  match segs with
  | [] => Some 0%Q
  | seg :: rest =>
      a <- shoelace seg ;;
      s <- shoelace_sum rest ;;
      Some (a + s)%Q
  end.

(** The signed area enclosed by a closed polyline: positive when it runs
    counter-clockwise. *)
Definition enclosed_area (doc : Drawing Q) : option Q :=
  s <- shoelace_sum (modelspace doc) ;; Some (s / 2)%Q.

End Measure.

(** ** A sample run

    Concrete inputs on which the facts below are tried: a plate of
    100 x 50 x 10 mm in AISI 304, a mesh that keeps the coordinates as they
    are, and the state the generate action leaves from a fresh session. *)

Definition sample_inputs : Inputs :=
  {| in_width := 100; in_length := 50; in_thickness := 10;
     in_steel_type := "AISI 304"; in_opacity := 1 |}.

Definition sample_app : App float :=
  match on_generate (fun c : float => c) 0%float sample_inputs app_start with
  | Some app => app
  | None => app_start
  end.

(** A small mesh of its own: a square of two triangles. *)
Definition sample_vertices : list (list float) :=
  [ [0; 0; 0]; [1; 0; 0]; [1; 1; 0]; [0; 1; 0] ]%float.

Definition sample_faces : list (list Z) := [ [0; 1; 2]; [0; 2; 3] ].

(** ** Signs of floats *)

(** A specified float that is not below zero: a zero of either sign, a
    positive number, +infinity, or NaN. *)
Definition not_negative (x : spec_float) : bool :=
  match x with
  | S754_finite true _ _ => false
  | S754_infinity true => false
  | _ => true
  end.

(** ** Indexing and loop facts *)

(** Reading succeeds exactly on the indices [-n .. n-1]. *)
Lemma getitem_some_iff {A : Type} (a : list A) (i : Z) :
  (exists v, getitem a i = Some v) <->
  - Z.of_nat (List.length a) <= i < Z.of_nat (List.length a).
Proof.
  unfold getitem, normalize_index. split.
  - intros [v Hv].
    destruct ((0 <=? i) && (i <? Z.of_nat (List.length a))) eqn:E1; [lia|].
    destruct ((- Z.of_nat (List.length a) <=? i) && (i <? 0)) eqn:E2; [lia|].
    discriminate Hv.
  - intros [Hlo Hhi].
    destruct (Z_lt_le_dec i 0) as [Hneg | Hpos].
    + assert (E1 : (0 <=? i) = false) by (apply Z.leb_gt; lia).
      assert (E3 : (- Z.of_nat (List.length a) <=? i) = true)
        by (apply Z.leb_le; lia).
      assert (E4 : (i <? 0) = true) by (apply Z.ltb_lt; lia).
      rewrite E1, E3, E4. simpl.
      destruct (nth_error a (Z.to_nat (Z.of_nat (List.length a) + i))) eqn:E.
      * eauto.
      * apply nth_error_None in E. lia.
    + assert (E1 : (0 <=? i) = true) by (apply Z.leb_le; lia).
      assert (E2 : (i <? Z.of_nat (List.length a)) = true)
        by (apply Z.ltb_lt; lia).
      rewrite E1, E2. simpl.
      destruct (nth_error a (Z.to_nat i)) eqn:E.
      * eauto.
      * apply nth_error_None in E. lia.
Qed.

(** A file just written is the one read back. *)
Lemma read_write_file {T C : Type} (name : string) (f : File T C)
  (d : Disk T C) :
  read_file name (write_file name f d) = Some f.
Proof.
  unfold read_file, write_file. simpl. rewrite String.eqb_refl. reflexivity.
Qed.

(** Splitting a bounded integer into its cases. *)
Ltac z_cases n k :=
  let rec go m :=
    lazymatch m with
    | O => exfalso; lia
    | S ?m' =>
        let E := fresh "E" in
        destruct (Z.eq_dec n (Z.of_nat m')) as [E | E];
        [ simpl in E; subst n | go m' ]
    end
  in go k.

(** ** Facts about the geometry *)

Section Geometry.

Context {T : Type} `{Number T}.
Context {C : Type} (store : T -> C) (czero : C).

(** [create_plate] never raises, and its result in closed form. *)
Lemma create_plate_value (w l t : T) :
  create_plate store czero w l t =
  Some ({| vectors := map (triangle_of store (plate_vertices w l t)) plate_faces |},
        plate_vertices w l t).
Proof. reflexivity. Qed.

(** C3: [create_plate] returns exactly eight vertices, in the order
    (0,0,0), (w,0,0), (w,l,0), (0,l,0), (0,0,t), (w,0,t), (w,l,t), (0,l,t);
    the vertices 0 to 3 have z = 0 (bottom face) and the vertices 4 to 7 have
    z = t (top face). *)
Theorem create_plate_vertices (w l t : T) :
  let o := num_lit 0 in
  exists m vertices,
    create_plate store czero w l t = Some (m, vertices) /\
    vertices = [ [o; o; o]; [w; o; o]; [w; l; o]; [o; l; o];
                 [o; o; t]; [w; o; t]; [w; l; t]; [o; l; t] ] /\
    List.length vertices = 8%nat /\
    (forall i, 0 <= i < 4 -> exists x y, getitem vertices i = Some [x; y; o]) /\
    (forall i, 4 <= i < 8 -> exists x y, getitem vertices i = Some [x; y; t]).
Proof.
  intro o. exists {| vectors := map (triangle_of store (plate_vertices w l t)) plate_faces |}.
  exists (plate_vertices w l t).
  split; [apply create_plate_value|].
  split; [reflexivity|]. split; [reflexivity|]. split.
  - intros i Hi. z_cases i 4%nat; do 2 eexists; reflexivity.
  - intros i Hi. z_cases i 8%nat; try lia; do 2 eexists; reflexivity.
Qed.

(** What the filling loop leaves in the mesh: twelve triangles, slot [j] of
    triangle [i] holding the stored row [vertices[faces[i][j]]]. *)
Lemma create_plate_slots (w l t : T) :
  exists m vertices,
    create_plate store czero w l t = Some (m, vertices) /\
    List.length (vectors m) = 12%nat /\
    forall i j, 0 <= i < 12 -> 0 <= j < 3 ->
      exists face index row triangle,
        getitem plate_faces i = Some face /\
        getitem face j = Some index /\
        getitem vertices index = Some row /\
        getitem (vectors m) i = Some triangle /\
        List.length triangle = 3%nat /\
        getitem triangle j = Some (map store row).
Proof.
  eexists. eexists. split; [apply create_plate_value|].
  split; [reflexivity|].
  intros i j Hi Hj.
  z_cases i 12%nat; z_cases j 3%nat;
    do 4 eexists; repeat split; reflexivity.
Qed.

(** C10: every vertex index in [faces] lies in 0..7, so each lookup
    [vertices[face[j]]] of the filling loop succeeds and [create_plate]
    never raises an [IndexError]. *)
Theorem plate_faces_in_bounds (w l t : T) :
  Forall (Forall (fun index => 0 <= index <= 7)) plate_faces /\
  List.length (plate_vertices w l t) = 8%nat /\
  (forall face index, In face plate_faces -> In index face ->
     exists row, getitem (plate_vertices w l t) index = Some row) /\
  (forall i j, 0 <= i < 12 -> 0 <= j < 3 ->
     exists face index row,
       getitem plate_faces i = Some face /\
       getitem face j = Some index /\
       normalize_index 8 index = Some (Z.to_nat index) /\
       getitem (plate_vertices w l t) index = Some row) /\
  create_plate store czero w l t <> None.
Proof.
  assert (Hb : Forall (Forall (fun index => 0 <= index <= 7)) plate_faces)
    by (unfold plate_faces; repeat constructor; lia).
  split; [exact Hb|].
  split; [reflexivity|].
  split.
  { intros face index Hface Hindex.
    apply getitem_some_iff.
    rewrite Forall_forall in Hb. specialize (Hb face Hface).
    rewrite Forall_forall in Hb. specialize (Hb index Hindex).
    simpl. lia. }
  split.
  { intros i j Hi Hj.
    z_cases i 12%nat; z_cases j 3%nat;
      do 3 eexists; repeat split; reflexivity. }
  rewrite create_plate_value. discriminate.
Qed.

(** C9: two calls of [create_plate] with identical width, length and
    thickness return the same mesh and the same vertex array, built from the
    same face array; the call always returns, and the face array does not
    depend on the dimensions at all. *)
Theorem create_plate_deterministic (w1 l1 t1 w2 l2 t2 : T) :
  w1 = w2 -> l1 = l2 -> t1 = t2 ->
  exists m1 v1 m2 v2,
    create_plate store czero w1 l1 t1 = Some (m1, v1) /\
    create_plate store czero w2 l2 t2 = Some (m2, v2) /\
    v1 = v2 /\
    m1 = m2 /\
    vectors m1 = map (triangle_of store v1) plate_faces /\
    vectors m2 = map (triangle_of store v2) plate_faces.
Proof.
  intros -> -> ->.
  do 4 eexists.
  split; [apply create_plate_value|].
  split; [apply create_plate_value|].
  repeat split.
Qed.

(** C6: on the vertex array of [create_plate], whatever the dimensions,
    [create_dxf_from_numpy] saves a drawing of exactly four lines; line [i]
    runs from vertex [i] to vertex [(i + 1) % 4] with the X and Y
    coordinates only, so the lines are (0,0)-(w,0), (w,0)-(w,l), (w,l)-(0,l),
    (0,l)-(0,0) and each one ends where the next one starts, the last one
    where the first one starts. *)
Theorem create_dxf_outline (w l t : T) (filename : string) (d : Disk T C) :
  let o := num_lit 0 in
  exists m vertices doc,
    create_plate store czero w l t = Some (m, vertices) /\
    create_dxf_from_numpy vertices filename d =
      Some (write_file filename (DxfFile doc) d) /\
    read_file filename (write_file filename (DxfFile doc) d) =
      Some (DxfFile doc) /\
    modelspace doc =
      [ {| line_start := [o; o]; line_end := [w; o] |};
        {| line_start := [w; o]; line_end := [w; l] |};
        {| line_start := [w; l]; line_end := [o; l] |};
        {| line_start := [o; l]; line_end := [o; o] |} ] /\
    List.length (modelspace doc) = 4%nat /\
    (forall i, 0 <= i < 4 ->
       exists p q seg,
         getitem vertices i = Some p /\
         getitem vertices ((i + 1) mod 4) = Some q /\
         getitem (modelspace doc) i = Some seg /\
         line_start seg = firstn 2 p /\
         line_end seg = firstn 2 q) /\
    (forall i, 0 <= i < 4 ->
       exists seg next,
         getitem (modelspace doc) i = Some seg /\
         getitem (modelspace doc) ((i + 1) mod 4) = Some next /\
         line_end seg = line_start next).
Proof.
  intro o. do 3 eexists.
  split; [apply create_plate_value|].
  split; [reflexivity|].
  split; [apply read_write_file|].
  split; [reflexivity|].
  split; [reflexivity|].
  split.
  - intros i Hi. z_cases i 4%nat; do 3 eexists; repeat split; reflexivity.
  - intros i Hi. z_cases i 4%nat; do 2 eexists; repeat split; reflexivity.
Qed.

(** C7: on the mesh of [create_plate], [mesh_to_plotly] produces X, Y and Z
    sequences of 36 entries each, entry [3n + c] being corner [c] of triangle
    [n] (nothing is shared between triangles), and index lists [i], [j], [k]
    of 12 entries each with [(i[n], j[n], k[n]) = (3n, 3n+1, 3n+2)]. *)
Theorem mesh_to_plotly_of_plate (w l t opacity_value : T) :
  exists m vertices fig trace,
    create_plate store czero w l t = Some (m, vertices) /\
    mesh_to_plotly m opacity_value = Some fig /\
    data fig = [trace] /\
    opacity trace = opacity_value /\
    List.length (mesh_x trace) = 36%nat /\
    List.length (mesh_y trace) = 36%nat /\
    List.length (mesh_z trace) = 36%nat /\
    List.length (mesh_i trace) = 12%nat /\
    List.length (mesh_j trace) = 12%nat /\
    List.length (mesh_k trace) = 12%nat /\
    (forall n, 0 <= n < 12 ->
       getitem (mesh_i trace) n = Some (3 * n) /\
       getitem (mesh_j trace) n = Some (3 * n + 1) /\
       getitem (mesh_k trace) n = Some (3 * n + 2)) /\
    (forall n c, 0 <= n < 12 -> 0 <= c < 3 ->
       exists triangle px py pz,
         getitem (vectors m) n = Some triangle /\
         getitem triangle c = Some [px; py; pz] /\
         getitem (mesh_x trace) (3 * n + c) = Some px /\
         getitem (mesh_y trace) (3 * n + c) = Some py /\
         getitem (mesh_z trace) (3 * n + c) = Some pz).
Proof.
  do 4 eexists.
  split; [apply create_plate_value|].
  split; [reflexivity|].
  split; [reflexivity|].
  split; [reflexivity|].
  do 6 (split; [reflexivity|]).
  split.
  - intros n Hn. z_cases n 12%nat; repeat split; reflexivity.
  - intros n c Hn Hc.
    z_cases n 12%nat; z_cases c 3%nat;
      do 4 eexists; repeat split; reflexivity.
Qed.

End Geometry.

(** Reading an element that is there gives an element of the list. *)
Lemma getitem_In {A : Type} (a : list A) (i : Z) (v : A) :
  getitem a i = Some v -> In v a.
Proof.
  unfold getitem.
  destruct (normalize_index (List.length a) i) as [k|]; cbn [bind];
    [|discriminate].
  apply nth_error_In.
Qed.

(** A row of the vertex array of float32 dimensions is kept as it is. *)
Lemma plate_rows_float32 (w l t : float) (row : list float) :
  float32 w = w -> float32 l = l -> float32 t = t ->
  In row (plate_vertices w l t) -> map float32 row = row.
Proof.
  intros Hw Hl Ht Hin.
  assert (H0 : float32 0 = 0%float) by reflexivity.
  unfold plate_vertices in Hin. change (num_lit 0) with 0%float in Hin.
  simpl in Hin.
  repeat (destruct Hin as [<- | Hin];
          [cbn [map]; rewrite ?H0, ?Hw, ?Hl, ?Ht; reflexivity|]).
  destruct Hin.
Qed.

(** C5, as the code has it: the mesh of [create_plate] has exactly twelve
    triangles, and for every triangle [i] in 0..11 and slot [j] in 0..2 the
    slot holds the coordinates of [vertices[faces[i][j]]], in the order of
    the face, each converted to the float32 the mesh stores; they are equal
    to the coordinates of the vertex when width, length and thickness are
    float32 values. *)
Theorem create_plate_mesh_vectors (w l t : float) :
  exists m vertices,
    create_plate float32 0%float w l t = Some (m, vertices) /\
    List.length (vectors m) = 12%nat /\
    (forall i j, 0 <= i < 12 -> 0 <= j < 3 ->
       exists face index row triangle,
         getitem plate_faces i = Some face /\
         getitem face j = Some index /\
         getitem vertices index = Some row /\
         getitem (vectors m) i = Some triangle /\
         List.length triangle = 3%nat /\
         getitem triangle j = Some (map float32 row)) /\
    (float32 w = w -> float32 l = l -> float32 t = t ->
     forall i j, 0 <= i < 12 -> 0 <= j < 3 ->
       exists face index row triangle,
         getitem plate_faces i = Some face /\
         getitem face j = Some index /\
         getitem vertices index = Some row /\
         getitem (vectors m) i = Some triangle /\
         List.length triangle = 3%nat /\
         getitem triangle j = Some row).
Proof.
  destruct (create_plate_slots float32 0%float w l t)
    as [m [vertices [Hm [Hlen Hslots]]]].
  exists m, vertices. split; [exact Hm|]. split; [exact Hlen|].
  split; [exact Hslots|].
  intros Hw Hl Ht i j Hi Hj.
  destruct (Hslots i j Hi Hj)
    as [face [index [row [triangle [Hf [Hx [Hr [Ht' [Hl' Hs]]]]]]]]].
  rewrite create_plate_value in Hm. injection Hm as _ <-.
  rewrite (plate_rows_float32 w l t row Hw Hl Ht (getitem_In _ _ _ Hr)) in Hs.
  exists face, index, row, triangle. repeat split; assumption.
Qed.

(** C5, where it fails: at a thickness of 10.1 mm the first corner of
    triangle 2 is vertex 4, (0, 0, 10.1), but the mesh holds
    (0, 0, 10.100000381469727) for it, the nearest float32. *)
Lemma mesh_stores_float32 :
  exists m vertices triangle,
    create_plate float32 0%float 100%float 100%float 10.1%float
      = Some (m, vertices) /\
    getitem plate_faces 2 = Some [4; 5; 7] /\
    getitem vertices 4 = Some [0; 0; 10.1]%float /\
    getitem (vectors m) 2 = Some triangle /\
    getitem triangle 0 = Some [0; 0; 10.100000381469727]%float /\
    (10.100000381469727 =? 10.1)%float = false.
Proof.
  do 3 eexists. split; [apply create_plate_value|].
  repeat split; vm_compute; reflexivity.
Qed.

Lemma create_plate_deterministic_witness :
  (100 = 100 /\ 50 = 50 /\ 10 = 10)%float /\
  exists m1 v1 m2 v2,
    create_plate (fun c : float => c) 0%float 100%float 50%float 10%float
      = Some (m1, v1) /\
    create_plate (fun c : float => c) 0%float 100%float 50%float 10%float
      = Some (m2, v2) /\
    v1 = v2 /\
    m1 = m2 /\
    vectors m1 = map (triangle_of (fun c : float => c) v1) plate_faces /\
    vectors m2 = map (triangle_of (fun c : float => c) v2) plate_faces.
Proof.
  split; [repeat split|].
  apply (create_plate_deterministic (fun c : float => c) 0%float
           100%float 50%float 10%float 100%float 50%float 10%float);
    reflexivity.
Defined.

(** The generate action replaces the mesh of the session and the message
    wholesale: what it leaves there does not depend on the state before. *)
Lemma on_generate_forgets_history {C : Type} (store : float -> C) (czero : C)
  (inp : Inputs) (app1 app2 : App C) :
  option_map (fun a => (session_plate_mesh a, success a))
    (on_generate store czero inp app1) =
  option_map (fun a => (session_plate_mesh a, success a))
    (on_generate store czero inp app2).
Proof.
  unfold on_generate. rewrite create_plate_value. cbn [bind].
  destruct (dict_get steel_types (in_steel_type inp)); reflexivity.
Qed.

(** ** Facts about the weight, on binary64 floats *)

Section Binary64.

Local Open Scope float_scope.

(** The literal [1000] as a float. *)
Lemma float_lit_1000 : float_of_Z 1000 = 1000.
Proof. reflexivity. Qed.

(** A finite float is a zero or a finite nonzero number. *)
Lemma is_finite_cases (x : float) :
  is_finite x = true ->
  (exists s, Prim2SF x = S754_zero s) \/
  (exists s m e, Prim2SF x = S754_finite s m e).
Proof.
  unfold is_finite, is_nan, is_infinity.
  rewrite !FloatAxioms.eqb_spec, abs_spec.
  change (Prim2SF infinity) with (S754_infinity false).
  destruct (Prim2SF x) as [s | s | | s m e]; simpl; intro Hfin.
  - left. eauto.
  - destruct s; discriminate Hfin.
  - discriminate Hfin.
  - right. eauto.
Qed.

(** A float whose specification is a zero compares equal to [0]. *)
Lemma eqb_zero_of_spec (x : float) (s : bool) :
  Prim2SF x = S754_zero s -> (x =? 0) = true.
Proof.
  intro Hx. rewrite FloatAxioms.eqb_spec, Hx.
  change (Prim2SF 0) with (S754_zero false). destruct s; reflexivity.
Qed.

(** finite * zero = zero *)
Lemma mul_finite_zero (x z : float) (s : bool) :
  is_finite x = true -> Prim2SF z = S754_zero s ->
  exists s', Prim2SF (x * z) = S754_zero s'.
Proof.
  intros Hx Hz. rewrite mul_spec, Hz.
  destruct (is_finite_cases x Hx) as [[sx ->] | [sx [m [e ->]]]];
    simpl; eauto.
Qed.

(** zero * finite = zero *)
Lemma mul_zero_finite (z x : float) (s : bool) :
  Prim2SF z = S754_zero s -> is_finite x = true ->
  exists s', Prim2SF (z * x) = S754_zero s'.
Proof.
  intros Hz Hx. rewrite mul_spec, Hz.
  destruct (is_finite_cases x Hx) as [[sx ->] | [sx [m [e ->]]]];
    simpl; eauto.
Qed.

(** zero / 1000 = zero *)
Lemma div_zero_1000 (z : float) (s : bool) :
  Prim2SF z = S754_zero s ->
  exists s', Prim2SF (z / 1000) = S754_zero s'.
Proof.
  intro Hz. rewrite div_spec, Hz.
  assert (H1000 : exists m e, Prim2SF 1000 = S754_finite false m e)
    by (vm_compute; eauto).
  destruct H1000 as [m [e ->]]. simpl. eauto.
Qed.

(** The weight of a zero volume is zero for a finite density. *)
Lemma calculate_weight_zero (v d : float) (s : bool) :
  Prim2SF v = S754_zero s -> is_finite d = true ->
  exists s', Prim2SF (calculate_weight v d) = S754_zero s'.
Proof.
  intros Hv Hd. unfold calculate_weight. simpl. rewrite float_lit_1000.
  destruct (div_zero_1000 v s Hv) as [s1 H1].
  exact (mul_zero_finite _ d s1 H1 Hd).
Qed.

(** C2: [calculate_volume(w, l, t)] is exactly the product [w * l * t]
    (evaluated from the left) and [calculate_weight(v, d)] is exactly
    [(v / 1000) * d]; no condition on the signs is needed.  The same holds
    on exact rationals. *)
Theorem calculate_volume_weight_formulas (w l t v d : float) :
  calculate_volume w l t = w * l * t /\
  calculate_weight v d = (v / 1000) * d /\
  (forall qw ql qt qv qd : Q,
     calculate_volume qw ql qt = (qw * ql * qt)%Q /\
     calculate_weight qv qd = ((qv / 1000) * qd)%Q).
Proof.
  split; [reflexivity|]. split; [reflexivity|].
  intros. split; reflexivity.
Qed.

(** The generate action never fails for a grade of the table, and the
    weight it reports is [weight_kg] at the density of the grade. *)
Lemma on_generate_reports {C : Type} (store : float -> C) (czero : C)
  (inp : Inputs) (app : App C) (d : float) :
  dict_get steel_types (in_steel_type inp) = Some d ->
  exists app',
    on_generate store czero inp app = Some app' /\
    success app' =
      Some (weight_kg (in_width inp) (in_length inp) (in_thickness inp) d,
            "chapa.dxf"%string).
Proof.
  intro Hd. unfold on_generate.
  rewrite create_plate_value. cbn [bind]. rewrite Hd. cbn [bind].
  eexists. split; reflexivity.
Qed.

(** C1, as the code has it: the mass in grams is
    [calculate_weight(calculate_volume(w, l, t), d) = ((w * l * t) / 1000) * d],
    the value reported in kg is that result divided by 1000, each operation
    rounded to binary64 in this order; over exact rationals this value is
    [w * l * t * d / 1000000]. *)
Theorem weight_pipeline (w l t d : float) :
  calculate_weight (calculate_volume w l t) d = ((w * l * t) / 1000) * d /\
  weight_kg w l t d = calculate_weight (calculate_volume w l t) d / 1000 /\
  weight_kg w l t d = (((w * l * t) / 1000) * d) / 1000 /\
  (forall (C : Type) (store : float -> C) (czero : C) (grade : string)
          (op : float) (app : App C),
     dict_get steel_types grade = Some d ->
     exists app',
       on_generate store czero
         {| in_width := w; in_length := l; in_thickness := t;
            in_steel_type := grade; in_opacity := op |} app = Some app' /\
       success app' = Some (weight_kg w l t d, "chapa.dxf"%string)) /\
  (forall qw ql qt qd : Q,
     weight_kg qw ql qt qd == qw * ql * qt * qd / 1000000)%Q.
Proof.
  split; [reflexivity|]. split; [reflexivity|]. split; [reflexivity|].
  split.
  - intros C store czero grade op app Hd.
    exact (on_generate_reports store czero
             {| in_width := w; in_length := l; in_thickness := t;
                in_steel_type := grade; in_opacity := op |} app d Hd).
  - intros. unfold weight_kg, calculate_weight, calculate_volume. simpl.
    field.
Qed.

(** C1, the closed form on floats: at 100 x 100 x 10.1 mm and the density
    7.85 of SAE 1020 the script reports 0.79284999999999994 kg, while
    [w * l * t * d / 1000000] evaluates to 0.79285000000000005. *)
Lemma weight_closed_form_differs :
  dict_get steel_types "SAE 1020" = Some 7.85 /\
  weight_kg 100 100 10.1 7.85 = 0.79284999999999994 /\
  100 * 100 * 10.1 * 7.85 / 1000000 = 0.79285000000000005 /\
  (weight_kg 100 100 10.1 7.85 =? 100 * 100 * 10.1 * 7.85 / 1000000) = false.
Proof. repeat split; reflexivity. Qed.

(** C8, as the code has it: when the product [w * l] is a finite float and
    the density is finite, a thickness of 0 gives a volume that compares
    equal to 0 and a weight that compares equal to 0, in grams and in kg. *)
Theorem zero_thickness_zero_weight (w l d : float) :
  is_finite (w * l) = true ->
  is_finite d = true ->
  (calculate_volume w l 0 =? 0) = true /\
  (calculate_weight 0 d =? 0) = true /\
  (calculate_weight (calculate_volume w l 0) d =? 0) = true /\
  (weight_kg w l 0 d =? 0) = true.
Proof.
  intros Hwl Hd.
  assert (H0 : Prim2SF 0 = S754_zero false) by reflexivity.
  destruct (mul_finite_zero (w * l) 0 false Hwl H0) as [sv Hv].
  destruct (calculate_weight_zero 0 d false H0 Hd) as [s0 Hw0].
  destruct (calculate_weight_zero (w * l * 0) d sv Hv Hd) as [sg Hg].
  destruct (div_zero_1000 _ sg Hg) as [sk Hk].
  split; [exact (eqb_zero_of_spec _ sv Hv)|].
  split; [exact (eqb_zero_of_spec _ s0 Hw0)|].
  split; [exact (eqb_zero_of_spec _ sg Hg)|].
  exact (eqb_zero_of_spec _ sk Hk).
Qed.

Lemma zero_thickness_zero_weight_witness :
  is_finite (100 * 100) = true /\
  is_finite 7.85 = true /\
  (calculate_volume 100 100 0 =? 0) = true /\
  (calculate_weight 0 7.85 =? 0) = true /\
  (calculate_weight (calculate_volume 100 100 0) 7.85 =? 0) = true /\
  (weight_kg 100 100 0 7.85 =? 0) = true.
Proof.
  split; [reflexivity|]. split; [reflexivity|].
  apply (zero_thickness_zero_weight 100 100 7.85); reflexivity.
Defined.

(** C8, where it fails: 1e200 >= 0, yet [1e200 * 1e200] overflows to
    infinity and [infinity * 0] is NaN, so the volume at thickness 0 is NaN
    and not 0, and so is the weight; and the weight of a zero volume is NaN
    for an infinite density. *)
Lemma zero_thickness_overflow :
  (0 <=? 1e200) = true /\
  1e200 * 1e200 = infinity /\
  is_nan (calculate_volume 1e200 1e200 0) = true /\
  (calculate_volume 1e200 1e200 0 =? 0) = false /\
  (calculate_weight (calculate_volume 1e200 1e200 0) 7.85 =? 0) = false /\
  (calculate_weight 0 infinity =? 0) = false.
Proof. repeat split; reflexivity. Qed.

End Binary64.

(** ** Orientation of the faces *)

Section Winding.

Import Normals.

(** C4: for positive width, length and thickness each of the twelve faces
    is wound so that the cross product of its two edges, taken in the listed
    order, points out of the box: straight down for the two bottom triangles,
    straight up for the two top ones, and along the outward axis for the two
    triangles of each of the four sides. *)
Theorem plate_faces_wound_outward (w l t : Q) :
  (0 < w)%Q -> (0 < l)%Q -> (0 < t)%Q ->
  List.length plate_faces = 12%nat /\
  List.length plate_sides = 12%nat /\
  forall i, 0 <= i < 12 ->
    exists face side a b c,
      getitem plate_faces i = Some face /\
      getitem plate_sides i = Some side /\
      face_corners (plate_vertices w l t) face = Some (a, b, c) /\
      face_normal (plate_vertices w l t) face =
        Some (cross (vsub b a) (vsub c a)) /\
      points_out_of side (cross (vsub b a) (vsub c a)) /\
      outward w l t a (cross (vsub b a) (vsub c a)).
Proof.
  intros Hw Hl Ht.
  split; [reflexivity|]. split; [reflexivity|].
  intros i Hi.
  assert (Hwl : (0 < w * l)%Q) by nra.
  assert (Hwt : (0 < w * t)%Q) by nra.
  assert (Hlt : (0 < l * t)%Q) by nra.
  assert (Hwlt : (0 < w * l * t)%Q) by nra.
  z_cases i 12%nat; do 5 eexists.
  all: do 4 (split; [reflexivity|]).
  all: split.
  (* the direction of each normal *)
  all: try solve [cbn; change (inject_Z 0) with 0%Q; repeat split; nra].
  all: split.
  (* the box lies behind each triangle *)
  all: try solve [intros [[px py] pz] [[Hx Hx'] [[Hy Hy'] [Hz Hz']]];
                  cbn; change (inject_Z 0) with 0%Q; ring_simplify; nra].
  (* the centre lies strictly behind *)
  all: cbn; change (inject_Z 0) with 0%Q.
  all: unfold Qdiv; change (/ 2)%Q with (1 # 2)%Q; ring_simplify; nra.
Qed.

Lemma plate_faces_wound_outward_witness :
  (0 < 100)%Q /\ (0 < 50)%Q /\ (0 < 10)%Q /\
  exists face side a b c,
    getitem plate_faces 0 = Some face /\
    getitem plate_sides 0 = Some side /\
    face_corners (plate_vertices 100 50 10)%Q face = Some (a, b, c) /\
    face_normal (plate_vertices 100 50 10)%Q face =
      Some (cross (vsub b a) (vsub c a)) /\
    points_out_of side (cross (vsub b a) (vsub c a)) /\
    outward 100 50 10 a (cross (vsub b a) (vsub c a)).
Proof.
  assert (Hw : (0 < 100)%Q) by reflexivity.
  assert (Hl : (0 < 50)%Q) by reflexivity.
  assert (Ht : (0 < 10)%Q) by reflexivity.
  split; [exact Hw|]. split; [exact Hl|]. split; [exact Ht|].
  apply (proj2 (proj2 (plate_faces_wound_outward 100 50 10 Hw Hl Ht)) 0).
  lia.
Defined.

End Winding.

(** ** Facts about indexing and assignment *)

Lemma normalize_index_nat (n k : nat) :
  normalize_index n (Z.of_nat k) = if (k <? n)%nat then Some k else None.
Proof.
  unfold normalize_index.
  destruct (Nat.ltb_spec k n) as [Hk | Hk].
  - replace ((0 <=? Z.of_nat k) && (Z.of_nat k <? Z.of_nat n)) with true
      by (symmetry; apply andb_true_iff; lia).
    rewrite Nat2Z.id. reflexivity.
  - replace ((0 <=? Z.of_nat k) && (Z.of_nat k <? Z.of_nat n)) with false
      by (symmetry; apply andb_false_iff; lia).
    replace ((- Z.of_nat n <=? Z.of_nat k) && (Z.of_nat k <? 0)) with false
      by (symmetry; apply andb_false_iff; lia).
    reflexivity.
Qed.

(** A front index reads the element at that position. *)
Lemma getitem_nat {A : Type} (a : list A) (k : nat) :
  getitem a (Z.of_nat k) = nth_error a k.
Proof.
  unfold getitem. rewrite normalize_index_nat.
  destruct (Nat.ltb_spec k (List.length a)) as [Hk | Hk]; [reflexivity|].
  symmetry. apply nth_error_None. exact Hk.
Qed.

Lemma setitem_nat {A : Type} (a : list A) (k : nat) (v : A) :
  setitem a (Z.of_nat k) v =
  if (k <? List.length a)%nat then Some (replace_nth k v a) else None.
Proof.
  unfold setitem. rewrite normalize_index_nat.
  destruct (k <? List.length a)%nat; reflexivity.
Qed.

Lemma replace_nth_length {A : Type} (k : nat) (v : A) (a : list A) :
  List.length (replace_nth k v a) = List.length a.
Proof.
  revert k. induction a as [|h rest IH]; intros [|k]; simpl; auto.
Qed.

Lemma nth_error_replace_nth_same {A : Type} (k : nat) (v : A) (a : list A) :
  (k < List.length a)%nat -> nth_error (replace_nth k v a) k = Some v.
Proof.
  revert k. induction a as [|h rest IH]; intros [|k] Hk; simpl in *;
    try lia; auto. apply IH. lia.
Qed.

Lemma nth_error_replace_nth_other {A : Type} (k k' : nat) (v : A) (a : list A) :
  k' <> k -> nth_error (replace_nth k v a) k' = nth_error a k'.
Proof.
  revert k k'. induction a as [|h rest IH]; intros [|k] [|k'] Hne; simpl;
    try reflexivity; try congruence.
  apply IH. congruence.
Qed.

(** Reading and writing fail on the same indices. *)
Lemma setitem_some_iff {A : Type} (a : list A) (i : Z) (v : A) :
  (exists a', setitem a i v = Some a') <-> (exists x, getitem a i = Some x).
Proof.
  unfold setitem, getitem.
  destruct (normalize_index (List.length a) i) as [k|] eqn:Hk; simpl.
  - split; intros _.
    + destruct (nth_error a k) eqn:E; [eauto|].
      apply nth_error_None in E.
      unfold normalize_index in Hk.
      destruct ((0 <=? i) && (i <? Z.of_nat (List.length a))) eqn:E1.
      * injection Hk as <-. lia.
      * destruct ((- Z.of_nat (List.length a) <=? i) && (i <? 0)) eqn:E2;
          [|discriminate]. injection Hk as <-. lia.
    + eauto.
  - split; intros [x Hx]; discriminate.
Qed.

Section SetVector.

Context {T C : Type} (store : T -> C).

(** Assigning one row of the mesh raises exactly when the slot does not
    exist ([IndexError]) or the row has neither the length of the slot nor
    the length 1 ([ValueError]). *)
Theorem set_vector_succeeds_iff (m : Mesh C) (i j : Z) (row : list T) :
  (exists m', set_vector store m i j row = Some m') <->
  (exists old, slot m i j = Some old /\
     (List.length row = List.length old \/ List.length row = 1%nat)).
Proof.
  unfold set_vector, slot.
  destruct (getitem (vectors m) i) as [triangle|] eqn:Ht; cbn [bind];
    [|split; [intros [m' Hm] | intros [old [Ho _]]]; discriminate].
  destruct (getitem triangle j) as [old|] eqn:Ho; cbn [bind];
    [|split; [intros [m' Hm] | intros [old [Ho' _]]]; discriminate].
  assert (Hst : exists t', setitem triangle j (map store row) = Some t')
    by (apply setitem_some_iff; eauto).
  assert (Hsv : forall t', exists v', setitem (vectors m) i t' = Some v')
    by (intro t'; apply setitem_some_iff; eauto).
  unfold assign_row.
  destruct (Nat.eqb_spec (List.length row) (List.length old)) as [Hlen | Hlen];
    cbn [bind].
  - destruct Hst as [t' ->]. cbn [bind].
    destruct (Hsv t') as [v' ->]. cbn [bind].
    split; intros _; eauto.
  - destruct row as [|v [|v' row']]; cbn [bind].
    + split; [intros [m' Hm]; discriminate|].
      intros [old' [Ho' [Hl | Hl]]]; injection Ho' as <-; simpl in *; congruence.
    + assert (Hst1 : exists t', setitem triangle j (map (fun _ => store v) old)
                                = Some t')
        by (apply setitem_some_iff; eauto).
      destruct Hst1 as [t' ->]. cbn [bind].
      destruct (Hsv t') as [v' ->]. cbn [bind].
      split; intros _; eauto.
    + split; [intros [m' Hm]; discriminate|].
      intros [old' [Ho' [Hl | Hl]]]; injection Ho' as <-; simpl in *;
        congruence.
Qed.

(** After [m.vectors[i][j] = row] with a row of the length of the slot, the
    slot holds the stored row, the number of triangles is the same and
    every other slot is as before. *)
Theorem set_vector_frame (m : Mesh C) (i j : nat) (row : list T)
  (old : list C) :
  slot m (Z.of_nat i) (Z.of_nat j) = Some old ->
  List.length row = List.length old ->
  exists m',
    set_vector store m (Z.of_nat i) (Z.of_nat j) row = Some m' /\
    slot m' (Z.of_nat i) (Z.of_nat j) = Some (map store row) /\
    List.length (vectors m') = List.length (vectors m) /\
    forall i' j' : nat, (i', j') <> (i, j) ->
      slot m' (Z.of_nat i') (Z.of_nat j') = slot m (Z.of_nat i') (Z.of_nat j').
Proof.
  unfold set_vector, slot. rewrite !getitem_nat.
  intros Hold Hlen.
  destruct (nth_error (vectors m) i) as [triangle|] eqn:Ht; [|discriminate].
  cbn [bind] in *. rewrite getitem_nat in *. rewrite Hold. cbn [bind].
  unfold assign_row. rewrite Hlen, Nat.eqb_refl. cbn [bind].
  assert (Hj : (j < List.length triangle)%nat)
    by (apply nth_error_Some; congruence).
  assert (Hi : (i < List.length (vectors m))%nat)
    by (apply nth_error_Some; congruence).
  rewrite setitem_nat.
  destruct (Nat.ltb_spec j (List.length triangle)) as [_ | ?]; [|lia].
  cbn [bind]. rewrite setitem_nat.
  destruct (Nat.ltb_spec i (List.length (vectors m))) as [_ | ?]; [|lia].
  cbn [bind]. eexists. split; [reflexivity|]. cbn [vectors].
  split.
  { rewrite getitem_nat, nth_error_replace_nth_same by exact Hi.
    cbn [bind]. rewrite getitem_nat.
    apply nth_error_replace_nth_same. exact Hj. }
  split; [apply replace_nth_length|].
  intros i' j' Hne. rewrite !getitem_nat.
  destruct (Nat.eq_dec i' i) as [-> | Hi'].
  - rewrite nth_error_replace_nth_same by exact Hi. rewrite Ht. cbn [bind].
    rewrite !getitem_nat. apply nth_error_replace_nth_other. congruence.
  - rewrite nth_error_replace_nth_other by exact Hi'. reflexivity.
Qed.

End SetVector.

Lemma getitem_app_mid {A : Type} (pre post : list A) (x : A) :
  getitem (pre ++ x :: post) (Z.of_nat (List.length pre)) = Some x.
Proof.
  rewrite getitem_nat, nth_error_app2 by lia.
  rewrite Nat.sub_diag. reflexivity.
Qed.

Lemma replace_nth_app_mid {A : Type} (pre post : list A) (x y : A) :
  replace_nth (List.length pre) y (pre ++ x :: post) = pre ++ y :: post.
Proof.
  induction pre as [|h pre IH]; simpl; [reflexivity|]. rewrite IH. reflexivity.
Qed.

Lemma setitem_app_mid {A : Type} (pre post : list A) (x y : A) :
  setitem (pre ++ x :: post) (Z.of_nat (List.length pre)) y
  = Some (pre ++ y :: post).
Proof.
  rewrite setitem_nat.
  destruct (Nat.ltb_spec (List.length pre) (List.length (pre ++ x :: post)))
    as [_ | Hge].
  - rewrite replace_nth_app_mid. reflexivity.
  - rewrite length_app in Hge. simpl in Hge. lia.
Qed.

Section FillMesh.

Context {T : Type} `{Number T}.
Context {C : Type} (store : T -> C) (czero : C).

(** One assignment of the filling loop, on a mesh split around the slot. *)
Lemma set_vector_app (done rest : list (list (list C)))
  (pre post : list (list C)) (old : list C) (row : list T) :
  List.length row = List.length old ->
  set_vector store {| vectors := done ++ (pre ++ old :: post) :: rest |}
    (Z.of_nat (List.length done)) (Z.of_nat (List.length pre)) row
  = Some {| vectors := done ++ (pre ++ map store row :: post) :: rest |}.
Proof.
  intro Hlen. unfold set_vector. cbn [vectors].
  rewrite getitem_app_mid. cbn [bind].
  rewrite getitem_app_mid. cbn [bind].
  unfold assign_row. rewrite Hlen, Nat.eqb_refl. cbn [bind].
  rewrite setitem_app_mid. cbn [bind].
  rewrite setitem_app_mid. reflexivity.
Qed.

(** A front index into [vertices] reads the row [nth] gives. *)
Lemma getitem_vertex (vertices : list (list T)) (index : Z) :
  (0 <=? index) && (index <? Z.of_nat (List.length vertices)) = true ->
  getitem vertices index = Some (nth (Z.to_nat index) vertices []).
Proof.
  intro Hb. apply andb_true_iff in Hb. destruct Hb as [Hlo Hhi].
  apply Z.leb_le in Hlo. apply Z.ltb_lt in Hhi.
  rewrite <- (Z2Nat.id index) at 1 by exact Hlo.
  rewrite getitem_nat. apply nth_error_nth'. lia.
Qed.

Lemma shape_n3_nth {A : Type} (rows : list (list A)) (k : nat) :
  shape_n3 rows = true -> (k < List.length rows)%nat ->
  List.length (nth k rows []) = 3%nat.
Proof.
  unfold shape_n3. rewrite forallb_forall. intros Hs Hk.
  apply Nat.eqb_eq. apply Hs. apply nth_In. exact Hk.
Qed.

(** The inner loop fills the three slots of triangle [length done]. *)
Lemma fill_triangle (vertices : list (list T)) (face : list Z)
  (done rest : list (list (list C))) :
  shape_n3 vertices = true ->
  List.length face = 3%nat ->
  forallb (fun index => (0 <=? index) && (index <? Z.of_nat (List.length vertices)))
    face = true ->
  for_each (range 3)
    (fill_slot store vertices (Z.of_nat (List.length done)) face)
    {| vectors := done ++ repeat (repeat czero 3) 3 :: rest |}
  = Some {| vectors := done ++ triangle_of store vertices face :: rest |}.
Proof.
  intros Hv Hlen Hin.
  destruct face as [|a [|b [|c [|? ?]]]]; try discriminate Hlen.
  simpl in Hin. apply andb_true_iff in Hin. destruct Hin as [Ha Hin].
  apply andb_true_iff in Hin. destruct Hin as [Hb Hin].
  apply andb_true_iff in Hin. destruct Hin as [Hc _].
  assert (Hrow : forall index,
            (0 <=? index) && (index <? Z.of_nat (List.length vertices)) = true ->
            List.length (nth (Z.to_nat index) vertices []) = 3%nat).
  { intros index Hi. apply shape_n3_nth; [exact Hv|].
    apply andb_true_iff in Hi. destruct Hi as [Hlo Hhi].
    apply Z.leb_le in Hlo. apply Z.ltb_lt in Hhi. lia. }
  change (range 3) with [0; 1; 2].
  cbn [for_each]. unfold fill_slot.
  change (getitem [a; b; c] 0) with (Some a).
  change (getitem [a; b; c] 1) with (Some b).
  change (getitem [a; b; c] 2) with (Some c).
  cbn [bind].
  rewrite (getitem_vertex vertices a Ha). cbn [bind].
  change (repeat (repeat czero 3) 3)
    with ([] ++ repeat czero 3 :: [repeat czero 3; repeat czero 3]).
  change 0 with (Z.of_nat (List.length (@nil (list C)))).
  rewrite set_vector_app by (rewrite (Hrow a Ha); reflexivity).
  cbn [bind].
  rewrite (getitem_vertex vertices b Hb). cbn [bind].
  change ([] ++ map store (nth (Z.to_nat a) vertices [])
             :: [repeat czero 3; repeat czero 3])
    with ([map store (nth (Z.to_nat a) vertices [])]
            ++ repeat czero 3 :: [repeat czero 3]).
  change 1 with (Z.of_nat (List.length [map store (nth (Z.to_nat a) vertices [])])).
  rewrite set_vector_app by (rewrite (Hrow b Hb); reflexivity).
  cbn [bind].
  rewrite (getitem_vertex vertices c Hc). cbn [bind].
  change ([map store (nth (Z.to_nat a) vertices [])]
            ++ map store (nth (Z.to_nat b) vertices []) :: [repeat czero 3])
    with ([map store (nth (Z.to_nat a) vertices []);
           map store (nth (Z.to_nat b) vertices [])]
            ++ repeat czero 3 :: []).
  change 2 with (Z.of_nat (List.length
                   [map store (nth (Z.to_nat a) vertices []);
                    map store (nth (Z.to_nat b) vertices [])])).
  rewrite set_vector_app by (rewrite (Hrow c Hc); reflexivity).
  reflexivity.
Qed.

(** The outer loop, from triangle [length done] on. *)
Lemma fill_from (vertices : list (list T)) (faces : list (list Z)) :
  shape_n3 vertices = true ->
  forall done : list (list (list C)),
  shape_n3 faces = true ->
  faces_in_range (List.length vertices) faces = true ->
  for_each
    (combine (map Z.of_nat (seq (List.length done) (List.length faces))) faces)
    (fun '(i, face) m => for_each (range 3) (fill_slot store vertices i face) m)
    {| vectors := done ++ repeat (repeat (repeat czero 3) 3) (List.length faces) |}
  = Some {| vectors := done ++ map (triangle_of store vertices) faces |}.
Proof.
  intro Hv. induction faces as [|face rest IH]; intros done Hs Hin.
  - reflexivity.
  - simpl in Hs, Hin.
    apply andb_true_iff in Hs. destruct Hs as [Hlen Hs].
    apply andb_true_iff in Hin. destruct Hin as [Hface Hin].
    apply Nat.eqb_eq in Hlen.
    cbn [List.length seq map combine for_each repeat].
    rewrite (fill_triangle vertices face done _ Hv Hlen Hface).
    cbn [bind].
    specialize (IH (done ++ [triangle_of store vertices face]) Hs Hin).
    rewrite length_app in IH. simpl in IH.
    rewrite Nat.add_1_r in IH.
    rewrite <- !app_assoc in IH. simpl in IH. exact IH.
Qed.

(** The filling loop gathers: for any vertex array of rows of three and any
    face array of rows of three front indices into it, the mesh of zeros is
    filled without an error and triangle [i] ends up holding the stored rows
    [vertices[faces[i][0]]], [vertices[faces[i][1]]], [vertices[faces[i][2]]]. *)
Theorem fill_mesh_gathers (vertices : list (list T)) (faces : list (list Z)) :
  shape_n3 vertices = true ->
  shape_n3 faces = true ->
  faces_in_range (List.length vertices) faces = true ->
  fill_mesh store vertices faces (mesh_zeros czero (List.length faces))
  = Some {| vectors := map (triangle_of store vertices) faces |}.
Proof.
  intros Hv Hs Hin. unfold fill_mesh, enumerate, mesh_zeros.
  exact (fill_from vertices faces Hv [] Hs Hin).
Qed.

End FillMesh.

(** ** Facts about the outline *)

Section Outline.

Context {T : Type}.

(** The four calls of [add_line] on an array that starts with four rows. *)
Lemma outline_drawing_cons4 (v0 v1 v2 v3 : list T) (rest : list (list T)) :
  outline_drawing (v0 :: v1 :: v2 :: v3 :: rest) =
  (d1 <- add_line (firstn 2 v0) (firstn 2 v1) (ezdxf_new "R2010") ;;
   d2 <- add_line (firstn 2 v1) (firstn 2 v2) d1 ;;
   d3 <- add_line (firstn 2 v2) (firstn 2 v3) d2 ;;
   d4 <- add_line (firstn 2 v3) (firstn 2 v0) d3 ;;
   Some d4).
Proof.
  unfold outline_drawing. change (range 4) with [0; 1; 2; 3].
  cbn [for_each]. unfold outline_segment.
  change ((0 + 1) mod 4) with 1. change ((1 + 1) mod 4) with 2.
  change ((2 + 1) mod 4) with 3. change ((3 + 1) mod 4) with 0.
  change 0 with (Z.of_nat 0). change 1 with (Z.of_nat 1).
  change 2 with (Z.of_nat 2). change 3 with (Z.of_nat 3).
  rewrite !getitem_nat. reflexivity.
Qed.

(** On fewer than four rows some [vertices[i]] raises an [IndexError]. *)
Lemma outline_drawing_short (vertices : list (list T)) :
  (List.length vertices < 4)%nat -> outline_drawing vertices = None.
Proof.
  intro Hlen.
  destruct vertices as [|v0 [|v1 [|v2 [|v3 rest]]]];
    [| | | | simpl in Hlen; lia];
    unfold outline_drawing; change (range 4) with [0; 1; 2; 3];
    cbn [for_each]; unfold outline_segment;
    change ((0 + 1) mod 4) with 1; change ((1 + 1) mod 4) with 2;
    change ((2 + 1) mod 4) with 3; change ((3 + 1) mod 4) with 0;
    change 0 with (Z.of_nat 0); change 1 with (Z.of_nat 1);
    change 2 with (Z.of_nat 2); change 3 with (Z.of_nat 3);
    rewrite !getitem_nat; cbn [nth_error bind];
    repeat (match goal with
            | |- context [add_line ?p ?q ?d] =>
                destruct (add_line p q d); cbn [bind]
            end);
    reflexivity.
Qed.

(** A slice [[:2]] has two coordinates exactly when the row has two or
    more. *)
Lemma firstn2_two (row : list T) :
  Nat.eqb (List.length (firstn 2 row)) 2 = (2 <=? List.length row)%nat.
Proof.
  rewrite length_firstn.
  destruct (Nat.leb_spec 2 (List.length row)) as [Hle | Hlt].
  - rewrite Nat.min_l by exact Hle. reflexivity.
  - rewrite Nat.min_r by lia. apply Nat.eqb_neq. lia.
Qed.

(** The drawing of four rows of two coordinates or more. *)
Lemma outline_drawing_lines (v0 v1 v2 v3 : list T) (rest : list (list T)) :
  (2 <= List.length v0)%nat -> (2 <= List.length v1)%nat ->
  (2 <= List.length v2)%nat -> (2 <= List.length v3)%nat ->
  outline_drawing (v0 :: v1 :: v2 :: v3 :: rest) =
  Some {| dxfversion := "R2010";
          modelspace :=
            [ {| line_start := firstn 2 v0; line_end := firstn 2 v1 |};
              {| line_start := firstn 2 v1; line_end := firstn 2 v2 |};
              {| line_start := firstn 2 v2; line_end := firstn 2 v3 |};
              {| line_start := firstn 2 v3; line_end := firstn 2 v0 |} ] |}.
Proof.
  intros H0 H1 H2 H3. rewrite outline_drawing_cons4. unfold add_line.
  rewrite !firstn2_two.
  apply Nat.leb_le in H0, H1, H2, H3. rewrite H0, H1, H2, H3.
  reflexivity.
Qed.

(** On any array of four rows or more whose first four rows have two
    coordinates or more, whatever else it holds, the drawing is built
    without an error and consists of exactly four lines through the first
    two coordinates of the first four rows, each line ending where the next
    one starts and the last one where the first one starts. *)
Theorem outline_drawing_four (v0 v1 v2 v3 : list T) (rest : list (list T)) :
  (2 <= List.length v0)%nat -> (2 <= List.length v1)%nat ->
  (2 <= List.length v2)%nat -> (2 <= List.length v3)%nat ->
  exists s0 s1 s2 s3,
    outline_drawing (v0 :: v1 :: v2 :: v3 :: rest) =
      Some {| dxfversion := "R2010"; modelspace := [s0; s1; s2; s3] |} /\
    line_start s0 = firstn 2 v0 /\ line_start s1 = firstn 2 v1 /\
    line_start s2 = firstn 2 v2 /\ line_start s3 = firstn 2 v3 /\
    line_end s0 = line_start s1 /\ line_end s1 = line_start s2 /\
    line_end s2 = line_start s3 /\ line_end s3 = line_start s0.
Proof.
  intros H0 H1 H2 H3. do 4 eexists.
  split; [apply outline_drawing_lines; assumption|].
  repeat split.
Qed.

(** The drawing cannot be built exactly when the array has fewer than four
    rows ([IndexError]) or one of its first four rows has fewer than two
    coordinates ([TypeError] of the drawing library). *)
Theorem outline_drawing_fails_iff (vertices : list (list T)) :
  outline_drawing vertices = None <->
  (List.length vertices < 4)%nat \/
  (exists row, In row (firstn 4 vertices) /\ (List.length row < 2)%nat).
Proof.
  destruct (Nat.lt_ge_cases (List.length vertices) 4) as [Hshort | Hlong].
  - split; [intros _; left; exact Hshort|].
    intros _. apply outline_drawing_short. exact Hshort.
  - destruct vertices as [|v0 [|v1 [|v2 [|v3 rest]]]];
      try (simpl in Hlong; lia).
    change (firstn 4 (v0 :: v1 :: v2 :: v3 :: rest)) with [v0; v1; v2; v3].
    rewrite outline_drawing_cons4. unfold add_line. rewrite !firstn2_two.
    destruct (Nat.leb_spec 2 (List.length v0)) as [H0 | H0];
      destruct (Nat.leb_spec 2 (List.length v1)) as [H1 | H1];
      destruct (Nat.leb_spec 2 (List.length v2)) as [H2 | H2];
      destruct (Nat.leb_spec 2 (List.length v3)) as [H3 | H3];
      cbn [andb bind].
    all: split;
      [ intro Hnone;
        first [ discriminate Hnone
              | right;
                first [ exists v0; split; [simpl; tauto | exact H0]
                      | exists v1; split; [simpl; tauto | exact H1]
                      | exists v2; split; [simpl; tauto | exact H2]
                      | exists v3; split; [simpl; tauto | exact H3] ] ]
      | intros [Hlt | [row [Hin Hrow]]];
        [ simpl in Hlt; lia
        | first [ reflexivity
                | simpl in Hin;
                  destruct Hin as [<- | [<- | [<- | [<- | []]]]]; lia ] ] ].
Qed.

(** The drawing depends on the first two coordinates of the first four rows
    only: neither a third coordinate nor a later row changes it. *)
Theorem outline_drawing_reads_only (v v' : list (list T)) :
  map (firstn 2) (firstn 4 v) = map (firstn 2) (firstn 4 v') ->
  outline_drawing v = outline_drawing v'.
Proof.
  intro Heq.
  assert (Hlen : List.length (firstn 4 v) = List.length (firstn 4 v')).
  { rewrite <- (length_map (firstn 2) (firstn 4 v)), Heq. apply length_map. }
  rewrite !length_firstn in Hlen.
  destruct (Nat.lt_ge_cases (List.length v) 4) as [Hshort | Hlong].
  - rewrite (outline_drawing_short v Hshort).
    rewrite (outline_drawing_short v') by lia. reflexivity.
  - assert (Hlong' : (4 <= List.length v')%nat) by lia.
    destruct v as [|a0 [|a1 [|a2 [|a3 ra]]]]; try (simpl in Hlong; lia).
    destruct v' as [|b0 [|b1 [|b2 [|b3 rb]]]]; try (simpl in Hlong'; lia).
    rewrite !outline_drawing_cons4.
    change (firstn 4 (a0 :: a1 :: a2 :: a3 :: ra)) with [a0; a1; a2; a3] in Heq.
    change (firstn 4 (b0 :: b1 :: b2 :: b3 :: rb)) with [b0; b1; b2; b3] in Heq.
    cbn [map] in Heq.
    remember (firstn 2 a0) as p0. remember (firstn 2 a1) as p1.
    remember (firstn 2 a2) as p2. remember (firstn 2 a3) as p3.
    remember (firstn 2 b0) as q0. remember (firstn 2 b1) as q1.
    remember (firstn 2 b2) as q2. remember (firstn 2 b3) as q3.
    injection Heq as -> -> -> ->. reflexivity.
Qed.

End Outline.

(** ** Facts about the files *)

Lemma read_file_write_other {T C : Type} (name other : string) (f : File T C)
  (d : Disk T C) :
  other <> name ->
  read_file other (write_file name f d) = read_file other d.
Proof.
  intro Hne. unfold read_file, write_file. cbn [dict_get].
  destruct (String.eqb_spec name other) as [E | _]; [congruence|].
  induction d as [|[k v] rest IH]; [reflexivity|].
  cbn [filter fst]. destruct (String.eqb_spec k name) as [-> | Hk]; cbn [negb].
  - rewrite IH. cbn [dict_get].
    destruct (String.eqb_spec name other) as [E | _]; [congruence|].
    reflexivity.
  - cbn [dict_get]. destruct (String.eqb k other); [reflexivity | exact IH].
Qed.

(** Saving the outline writes the named file and no other: the named file
    then holds the drawing of the array, and every other name reads as
    before. *)
Theorem create_dxf_writes_only {T C : Type} (vertices : list (list T))
  (filename : string) (d d' : Disk T C) :
  create_dxf_from_numpy vertices filename d = Some d' ->
  (exists doc, outline_drawing vertices = Some doc /\
               read_file filename d' = Some (DxfFile doc)) /\
  (forall other, other <> filename -> read_file other d' = read_file other d).
Proof.
  unfold create_dxf_from_numpy.
  destruct (outline_drawing vertices) as [doc|]; cbn [bind]; [|discriminate].
  intro Hd. injection Hd as <-. split.
  - exists doc. split; [reflexivity | apply read_write_file].
  - intros other Hne. apply read_file_write_other. exact Hne.
Qed.

(** ** Facts about the generate action and the session *)

(** A key is found exactly when it is one of the keys. *)
Lemma dict_get_some_iff {V : Type} (d : list (string * V)) (key : string) :
  (exists v, dict_get d key = Some v) <-> In key (dict_keys d).
Proof.
  induction d as [|[k v] rest IH]; simpl.
  - split; [intros [v Hv]; discriminate | intros []].
  - destruct (String.eqb_spec k key) as [-> | Hne].
    + split; eauto.
    + rewrite IH. split; [auto | intros [E | Hin]; [congruence | exact Hin]].
Qed.

(** Filtering twice by the same test changes nothing more. *)
Lemma filter_idem {A : Type} (p : A -> bool) (l : list A) :
  filter p (filter p l) = filter p l.
Proof.
  induction l as [|a l IH]; simpl; [reflexivity|].
  destruct (p a) eqn:E; simpl; [rewrite E, IH|]; auto.
Qed.

Lemma filter_comm {A : Type} (p q : A -> bool) (l : list A) :
  filter p (filter q l) = filter q (filter p l).
Proof.
  induction l as [|a l IH]; simpl; [reflexivity|].
  destruct (p a) eqn:Ep; destruct (q a) eqn:Eq; simpl;
    rewrite ?Ep, ?Eq, IH; reflexivity.
Qed.

Section Generate.

Context {C : Type} (store : float -> C) (czero : C).

(** The outline of a plate can always be drawn. *)
Lemma outline_of_plate (w l t : float) :
  exists doc, outline_drawing (plate_vertices w l t) = Some doc.
Proof. eexists. reflexivity. Qed.

(** The state a successful generate action leaves, written out. *)
Lemma on_generate_state (inp : Inputs) (app app' : App C) :
  on_generate store czero inp app = Some app' ->
  exists d doc,
    dict_get steel_types (in_steel_type inp) = Some d /\
    outline_drawing
      (plate_vertices (in_width inp) (in_length inp) (in_thickness inp))
      = Some doc /\
    app' =
      {| session_plate_mesh :=
           Some {| vectors :=
                     map (triangle_of store
                            (plate_vertices (in_width inp) (in_length inp)
                               (in_thickness inp))) plate_faces |};
         disk :=
           write_file "chapa.dxf" (DxfFile doc)
             (write_file "chapa.stl"
                (StlFile
                   {| vectors :=
                        map (triangle_of store
                               (plate_vertices (in_width inp) (in_length inp)
                                  (in_thickness inp))) plate_faces |})
                (disk app));
         success :=
           Some (weight_kg (in_width inp) (in_length inp) (in_thickness inp) d,
                 "chapa.dxf"%string) |}.
Proof.
  unfold on_generate. rewrite create_plate_value. cbn [bind].
  destruct (dict_get steel_types (in_steel_type inp)) as [d|]; cbn [bind];
    [|discriminate].
  destruct (outline_of_plate (in_width inp) (in_length inp) (in_thickness inp))
    as [doc Hdoc].
  unfold create_dxf_from_numpy. rewrite Hdoc. cbn [bind].
  intro Ha. injection Ha as <-. exists d, doc. repeat split.
Qed.

(** With a grade of the table the generate action succeeds. *)
Lemma on_generate_defined (inp : Inputs) (app : App C) :
  In (in_steel_type inp) (dict_keys steel_types) ->
  exists app', on_generate store czero inp app = Some app'.
Proof.
  intro Hin. apply dict_get_some_iff in Hin. destruct Hin as [d Hd].
  unfold on_generate. rewrite create_plate_value. cbn [bind].
  rewrite Hd. cbn [bind]. eexists. reflexivity.
Qed.

(** The generate action raises exactly when the grade is not a key of
    [steel_types] ([KeyError]); for the names the select box offers it
    always succeeds, whatever the dimensions and the state before. *)
Theorem on_generate_succeeds_iff (inp : Inputs) (app : App C) :
  (exists app', on_generate store czero inp app = Some app') <->
  In (in_steel_type inp) (dict_keys steel_types).
Proof.
  split.
  - intros [app' Hgen].
    destruct (on_generate_state inp app app' Hgen) as [d [_ [Hd _]]].
    apply dict_get_some_iff. eauto.
  - apply on_generate_defined.
Qed.

(** The generate action leaves the session and the disk in agreement. *)
Lemma on_generate_matches (inp : Inputs) (app app' : App C) :
  on_generate store czero inp app = Some app' ->
  session_matches_disk store czero app'.
Proof.
  intro Hgen.
  destruct (on_generate_state inp app app' Hgen) as [d [doc [_ [_ ->]]]].
  unfold session_matches_disk. cbn [session_plate_mesh disk].
  split; [|split].
  - exists (in_width inp), (in_length inp), (in_thickness inp).
    apply create_plate_value.
  - rewrite read_file_write_other by discriminate. apply read_write_file.
  - exists doc. apply read_write_file.
Qed.

(** What the generate action leaves: the session holds the mesh of the
    plate, [chapa.stl] holds that same mesh, [chapa.dxf] the outline of the
    vertices of the plate, and every other file reads as before. *)
Theorem on_generate_effects (inp : Inputs) (app app' : App C) :
  on_generate store czero inp app = Some app' ->
  exists m vertices doc,
    create_plate store czero (in_width inp) (in_length inp) (in_thickness inp)
      = Some (m, vertices) /\
    outline_drawing vertices = Some doc /\
    session_plate_mesh app' = Some m /\
    read_file "chapa.stl" (disk app') = Some (StlFile m) /\
    read_file "chapa.dxf" (disk app') = Some (DxfFile doc) /\
    (forall other, other <> "chapa.stl"%string -> other <> "chapa.dxf"%string ->
       read_file other (disk app') = read_file other (disk app)).
Proof.
  intro Hgen.
  destruct (on_generate_state inp app app' Hgen) as [d [doc [_ [Hdoc ->]]]].
  cbn [session_plate_mesh disk].
  do 3 eexists. split; [apply create_plate_value|]. split; [exact Hdoc|].
  split; [reflexivity|]. split.
  { rewrite read_file_write_other by discriminate. apply read_write_file. }
  split; [apply read_write_file|].
  intros other Hstl Hdxf.
  rewrite !read_file_write_other by assumption. reflexivity.
Qed.

(** Generating again with the same inputs changes nothing: the files are
    overwritten, not added, and the state is the one the first run left. *)
Theorem on_generate_idempotent (inp : Inputs) (app app1 : App C) :
  on_generate store czero inp app = Some app1 ->
  on_generate store czero inp app1 = Some app1.
Proof.
  unfold on_generate. rewrite create_plate_value. cbn [bind].
  destruct (dict_get steel_types (in_steel_type inp)) as [d|]; cbn [bind];
    [|discriminate].
  destruct (outline_of_plate (in_width inp) (in_length inp) (in_thickness inp))
    as [doc Hdoc].
  unfold create_dxf_from_numpy. rewrite Hdoc. cbn [bind].
  intro Ha. injection Ha as <-. cbn [disk].
  do 2 f_equal. unfold write_file.
  cbn [filter fst String.eqb Ascii.eqb Bool.eqb negb andb].
  do 2 f_equal.
  set (p := fun entry : string * File float C =>
              negb (fst entry =? "chapa.dxf")%string).
  set (q := fun entry : string * File float C =>
              negb (fst entry =? "chapa.stl")%string).
  rewrite (filter_comm q p (filter q (disk app))).
  rewrite !filter_idem. reflexivity.
Qed.

End Generate.

(** ** Facts about the preview data *)

(** [range(s, 3n, 3)] for [s] in 0..2 is [s, s + 3, ..., s + 3(n - 1)]. *)
Lemma range3_thirds (s : Z) (n : nat) :
  0 <= s < 3 ->
  range3 s (Z.of_nat (3 * n)) 3 =
  map (fun q => 3 * Z.of_nat q + s) (seq 0 n).
Proof.
  intro Hs. unfold range3.
  assert (Hcount :
    Z.to_nat (if s <? Z.of_nat (3 * n)
              then (Z.of_nat (3 * n) - s - 1) / 3 + 1 else 0) = n).
  { destruct (Z.ltb_spec s (Z.of_nat (3 * n))) as [Hlt | Hge].
    - assert (Hq : (Z.of_nat (3 * n) - s - 1) / 3 = Z.of_nat n - 1).
      { symmetry. apply (Z.div_unique _ 3 _ (2 - s)); lia. }
      rewrite Hq. lia.
    - lia. }
  rewrite Hcount. apply map_ext. intro q. lia.
Qed.

Section Columns.

Context {C : Type}.

(** Rows of three unpack into three columns of the same length, from which
    the rows can be put together again. *)
Lemma unpack_columns_rows (rows : list (list C)) :
  shape_n3 rows = true ->
  exists xs ys zs,
    unpack_columns rows = Some (xs, ys, zs) /\
    rows_of_columns xs ys zs = rows /\
    List.length xs = List.length rows /\
    List.length ys = List.length rows /\
    List.length zs = List.length rows.
Proof.
  induction rows as [|row rest IH]; intro Hs.
  - exists [], [], []. repeat split.
  - simpl in Hs. apply andb_true_iff in Hs. destruct Hs as [Hrow Hrest].
    destruct row as [|a [|b [|c [|? ?]]]]; try discriminate Hrow.
    destruct (IH Hrest) as [xs [ys [zs [Hu [Hr [Hx [Hy Hz]]]]]]].
    exists (a :: xs), (b :: ys), (c :: zs).
    cbn [unpack_columns]. rewrite Hu. cbn [bind].
    split; [reflexivity|]. split.
    { unfold rows_of_columns in *. cbn [combine map]. rewrite Hr. reflexivity. }
    simpl. repeat split; congruence.
Qed.

(** The rows of a mesh of shape (n, 3, 3): 3n rows of three. *)
Lemma reshape_rows_shape (v : list (list (list C))) :
  shape_n33 v = true ->
  shape_n3 (reshape_rows v) = true /\
  List.length (reshape_rows v) = (3 * List.length v)%nat.
Proof.
  unfold reshape_rows. induction v as [|tri rest IH]; intro Hs.
  - split; reflexivity.
  - simpl in Hs. apply andb_true_iff in Hs. destruct Hs as [Htri Hrest].
    apply andb_true_iff in Htri. destruct Htri as [Hlen Hrows].
    apply Nat.eqb_eq in Hlen.
    destruct (IH Hrest) as [IH1 IH2].
    change (List.concat (tri :: rest)) with (tri ++ List.concat rest). split.
    + unfold shape_n3 in *. rewrite forallb_app, Hrows, IH1. reflexivity.
    + rewrite length_app, IH2, Hlen. simpl. lia.
Qed.

End Columns.

Section Preview.

Context {T C : Type}.

(** On a mesh of shape (n, 3, 3) the preview can be built. *)
Lemma mesh_to_plotly_some (m : Mesh C) (opacity_value : T) :
  shape_n33 (vectors m) = true ->
  exists fig, mesh_to_plotly m opacity_value = Some fig.
Proof.
  intro Hs.
  destruct (reshape_rows_shape (vectors m) Hs) as [Hrows _].
  destruct (unpack_columns_rows _ Hrows) as [xs [ys [zs [Hu _]]]].
  unfold mesh_to_plotly. rewrite Hu. cbn [bind]. eexists. reflexivity.
Qed.

(** On any mesh of shape (n, 3, 3), with an opacity within [0, 1] (what the
    slider delivers and the figure accepts), the preview data is built;
    X, Y and Z are the three columns of the 3n rows of the mesh, in order,
    and [i], [j], [k] have [n] entries each, [3q], [3q + 1], [3q + 2] for
    triangle [q], every one a valid position in X, Y and Z. *)
Theorem mesh_to_plotly_flattens (m : Mesh C) (opacity_value : float) :
  (0 <=? opacity_value)%float = true ->
  (opacity_value <=? 1)%float = true ->
  shape_n33 (vectors m) = true ->
  exists fig trace,
    mesh_to_plotly m opacity_value = Some fig /\
    data fig = [trace] /\
    opacity trace = opacity_value /\
    rows_of_columns (mesh_x trace) (mesh_y trace) (mesh_z trace)
      = reshape_rows (vectors m) /\
    List.length (mesh_x trace) = (3 * List.length (vectors m))%nat /\
    List.length (mesh_y trace) = (3 * List.length (vectors m))%nat /\
    List.length (mesh_z trace) = (3 * List.length (vectors m))%nat /\
    mesh_i trace = map (fun q => 3 * Z.of_nat q) (seq 0 (List.length (vectors m))) /\
    mesh_j trace = map (fun q => 3 * Z.of_nat q + 1) (seq 0 (List.length (vectors m))) /\
    mesh_k trace = map (fun q => 3 * Z.of_nat q + 2) (seq 0 (List.length (vectors m))) /\
    Forall (fun index => 0 <= index < Z.of_nat (List.length (mesh_x trace)))
      (mesh_i trace ++ mesh_j trace ++ mesh_k trace).
Proof.
  intros _ _ Hs.
  destruct (reshape_rows_shape (vectors m) Hs) as [Hrows Hlen].
  destruct (unpack_columns_rows _ Hrows) as [xs [ys [zs [Hu [Hr [Hx [Hy Hz]]]]]]].
  rewrite Hlen in Hx, Hy, Hz.
  unfold mesh_to_plotly. rewrite Hu. cbn [bind].
  rewrite Hx, Hy, Hz, !range3_thirds by lia.
  eexists. eexists. split; [reflexivity|]. cbn [data].
  split; [reflexivity|].
  cbn [opacity mesh_x mesh_y mesh_z mesh_i mesh_j mesh_k].
  split; [reflexivity|]. split; [exact Hr|].
  split; [exact Hx|]. split; [exact Hy|]. split; [exact Hz|].
  split; [apply map_ext; intro; lia|].
  split; [reflexivity|]. split; [reflexivity|].
  rewrite Hx. rewrite !Forall_app.
  repeat split; apply Forall_forall; intros index Hin;
    apply in_map_iff in Hin; destruct Hin as [q [<- Hq]];
    apply in_seq in Hq; lia.
Qed.

End Preview.

(** ** Facts about a session *)

Section Session.

Context {C : Type} (store : float -> C) (czero : C).

(** The mesh of a plate has the shape (12, 3, 3). *)
Lemma plate_mesh_shape (m : Mesh C) (w l t : float) :
  create_plate store czero w l t = Some (m, plate_vertices w l t) ->
  shape_n33 (vectors m) = true.
Proof.
  rewrite create_plate_value. intro Hm. injection Hm as <-. reflexivity.
Qed.

(** A fresh session agrees with any disk. *)
Lemma app_start_matches : session_matches_disk store czero app_start.
Proof. exact I. Qed.

(** In a state where session and disk agree, showing the page never fails:
    the preview can be built and both files can be opened. *)
Lemma show_page (inp : Inputs) (app : App C) :
  session_matches_disk store czero app ->
  exists chart downloads,
    render_preview inp app = Some chart /\
    download_section app = Some downloads /\
    match session_plate_mesh app with
    | None => chart = None /\ downloads = []
    | Some m =>
        (exists fig, mesh_to_plotly m (in_opacity inp) = Some fig /\
                     chart = Some fig) /\
        exists doc,
          map (fun d => (dl_file_name d, dl_data d)) downloads
          = [ ("chapa.stl"%string, StlFile m);
              ("chapa.dxf"%string, DxfFile doc) ]
    end.
Proof.
  unfold session_matches_disk, render_preview, download_section.
  destruct (session_plate_mesh app) as [m|].
  - intros [[w [l [t Hm]]] [Hstl [doc Hdxf]]].
    destruct (mesh_to_plotly_some m (in_opacity inp)
                (plate_mesh_shape m w l t Hm)) as [fig Hfig].
    rewrite Hfig, Hstl, Hdxf. cbn [bind].
    do 2 eexists. split; [reflexivity|]. split; [reflexivity|].
    split; [eauto|]. exists doc. reflexivity.
  - intros _. do 2 eexists. repeat split.
Qed.

(** Without a press of the button a run changes neither the session nor the
    disk and shows no message; the page shows the preview of the mesh of the
    session at the chosen opacity, and offers that same mesh as
    [chapa.stl] together with the drawing in [chapa.dxf]. *)
Theorem page_shows_the_session (inp : Inputs) (app : App C) :
  session_matches_disk store czero app ->
  exists page,
    run_script store czero inp false app = Some (app, page) /\
    page_message page = None /\
    match session_plate_mesh app with
    | None => page_chart page = None /\ page_downloads page = []
    | Some m =>
        (exists fig, mesh_to_plotly m (in_opacity inp) = Some fig /\
                     page_chart page = Some fig) /\
        exists doc,
          map (fun d => (dl_file_name d, dl_data d)) (page_downloads page)
          = [ ("chapa.stl"%string, StlFile m);
              ("chapa.dxf"%string, DxfFile doc) ]
    end.
Proof.
  intro Hinv.
  destruct (show_page inp app Hinv) as [chart [downloads [Hc [Hd Hpage]]]].
  unfold run_script. cbn [bind]. rewrite Hc, Hd. cbn [bind].
  eexists. split; [reflexivity|]. split; [reflexivity|].
  cbn [page_chart page_downloads]. exact Hpage.
Qed.

(** One run from a state where session and disk agree, with a grade of the
    table when the button is pressed, succeeds and leaves them in
    agreement. *)
Lemma run_script_keeps (inp : Inputs) (pressed : bool) (app : App C) :
  session_matches_disk store czero app ->
  (pressed = true -> In (in_steel_type inp) (dict_keys steel_types)) ->
  exists app' page,
    run_script store czero inp pressed app = Some (app', page) /\
    session_matches_disk store czero app'.
Proof.
  intros Hinv Hgrade. unfold run_script. destruct pressed.
  - destruct (proj2 (on_generate_succeeds_iff store czero inp app)
                (Hgrade eq_refl)) as [app1 Hgen].
    rewrite Hgen. cbn [bind].
    pose proof (on_generate_matches store czero inp app app1 Hgen) as Hinv1.
    destruct (show_page inp app1 Hinv1) as [chart [downloads [Hc [Hd _]]]].
    rewrite Hc, Hd. cbn [bind]. eauto.
  - cbn [bind].
    destruct (show_page inp app Hinv) as [chart [downloads [Hc [Hd _]]]].
    rewrite Hc, Hd. cbn [bind]. eauto.
Qed.

Lemma run_session_keeps (events : list (Inputs * bool)) :
  Forall (fun event => snd event = true ->
            In (in_steel_type (fst event)) (dict_keys steel_types)) events ->
  forall app, session_matches_disk store czero app ->
  exists app',
    run_session store czero events app = Some app' /\
    session_matches_disk store czero app'.
Proof.
  induction 1 as [|[inp pressed] rest Hev _ IH]; intros app Hinv.
  - exists app. split; [reflexivity | exact Hinv].
  - cbn [run_session].
    destruct (run_script_keeps inp pressed app Hinv Hev)
      as [app1 [page [Hrun Hinv1]]].
    rewrite Hrun. cbn [bind]. exact (IH app1 Hinv1).
Qed.

(** A whole session, from a fresh start: whatever the dimensions, opacities
    and presses, as long as the grade is one of the table whenever the
    button is pressed, no run fails (no missing key, no bad index, no
    missing file) and in the end the session holds either no mesh or the mesh
    of a plate that [chapa.stl] holds too, beside a drawing in [chapa.dxf]. *)
Theorem run_session_safe (events : list (Inputs * bool)) :
  Forall (fun event => snd event = true ->
            In (in_steel_type (fst event)) (dict_keys steel_types)) events ->
  exists app,
    run_session store czero events app_start = Some app /\
    session_matches_disk store czero app.
Proof.
  intro Hev. exact (run_session_keeps events Hev app_start app_start_matches).
Qed.

End Session.

(** ** Facts about the sign of the weight, on binary64 floats *)

Section Signs.

Local Open Scope float_scope.

(** Rounding keeps the sign it is given. *)
Lemma binary_round_aux_not_negative (m e : Z) (l : location) :
  not_negative (binary_round_aux prec emax false m e l) = true.
Proof.
  unfold binary_round_aux.
  destruct (shr_fexp prec emax m e l) as [mrs' e'].
  destruct (shr_fexp prec emax _ e' loc_Exact) as [mrs'' e''].
  destruct (shr_m mrs'') as [|p|p]; [reflexivity| |reflexivity].
  destruct (e'' <=? emax - prec)%Z; reflexivity.
Qed.

Lemma SFmul_not_negative (x y : spec_float) :
  not_negative x = true -> not_negative y = true ->
  not_negative (SF64mul x y) = true.
Proof.
  unfold SF64mul, SFmul.
  destruct x as [sx | [|] | | [|] mx ex]; destruct y as [sy | [|] | | [|] my ey];
    simpl; intros Hx Hy; try discriminate; try reflexivity.
  apply binary_round_aux_not_negative.
Qed.

Lemma SFdiv_not_negative (x : spec_float) (my : positive) (ey : Z) :
  not_negative x = true ->
  not_negative (SF64div x (S754_finite false my ey)) = true.
Proof.
  unfold SF64div, SFdiv.
  destruct x as [sx | [|] | | [|] mx ex]; simpl; intros Hx;
    try discriminate; try reflexivity.
  destruct (SFdiv_core_binary prec emax (Z.pos mx) ex (Z.pos my) ey)
    as [[mz ez] lz].
  apply binary_round_aux_not_negative.
Qed.

(** A float that compares [>= 0] is a zero, a positive number or +infinity. *)
Lemma leb_zero_not_negative (x : float) :
  (0 <=? x) = true -> not_negative (Prim2SF x) = true.
Proof.
  rewrite leb_spec. change (Prim2SF 0) with (S754_zero false).
  destruct (Prim2SF x) as [s | [|] | | [|] m e]; simpl; intro Hx;
    try discriminate; reflexivity.
Qed.

(** A float that is not negative does not compare [< 0]. *)
Lemma not_negative_ltb_zero (x : float) :
  not_negative (Prim2SF x) = true -> (x <? 0) = false.
Proof.
  rewrite ltb_spec. change (Prim2SF 0) with (S754_zero false).
  destruct (Prim2SF x) as [s | [|] | | [|] m e]; simpl; intro Hx;
    try discriminate; reflexivity.
Qed.

Lemma mul_not_negative (x y : float) :
  not_negative (Prim2SF x) = true -> not_negative (Prim2SF y) = true ->
  not_negative (Prim2SF (x * y)) = true.
Proof. intros Hx Hy. rewrite mul_spec. apply SFmul_not_negative; assumption. Qed.

Lemma div_1000_not_negative (x : float) :
  not_negative (Prim2SF x) = true ->
  not_negative (Prim2SF (x / 1000)) = true.
Proof.
  intro Hx. rewrite div_spec.
  assert (H1000 : exists m e, Prim2SF 1000 = S754_finite false m e)
    by (vm_compute; eauto).
  destruct H1000 as [m [e ->]]. apply SFdiv_not_negative. exact Hx.
Qed.

(** From dimensions and a density that compare [>= 0] (what the widgets
    with [min_value=0.0] and the table deliver) the volume, the weight in
    grams and the weight in kg never compare [< 0]: each is a zero, a
    positive number, +infinity or NaN. *)
Theorem weight_never_negative (w l t d : float) :
  (0 <=? w) = true -> (0 <=? l) = true -> (0 <=? t) = true ->
  (0 <=? d) = true ->
  (calculate_volume w l t <? 0) = false /\
  (calculate_weight (calculate_volume w l t) d <? 0) = false /\
  (weight_kg w l t d <? 0) = false.
Proof.
  intros Hw Hl Ht Hd.
  apply leb_zero_not_negative in Hw, Hl, Ht, Hd.
  assert (Hv : not_negative (Prim2SF (w * l * t)) = true)
    by (repeat apply mul_not_negative; assumption).
  assert (Hg : not_negative (Prim2SF (w * l * t / 1000 * d)) = true)
    by (apply mul_not_negative; [apply div_1000_not_negative|]; assumption).
  assert (Hk : not_negative (Prim2SF (w * l * t / 1000 * d / 1000)) = true)
    by (apply div_1000_not_negative; assumption).
  split; [exact (not_negative_ltb_zero _ Hv)|].
  split; [exact (not_negative_ltb_zero _ Hg)|].
  exact (not_negative_ltb_zero _ Hk).
Qed.

Lemma SFmul_comm (x y : spec_float) : SF64mul x y = SF64mul y x.
Proof.
  unfold SF64mul, SFmul.
  destruct x as [sx | sx | | sx mx ex]; destruct y as [sy | sy | | sy my ey];
    try reflexivity; try (rewrite (xorb_comm sx sy); reflexivity).
  rewrite (xorb_comm sx sy), (Pos.mul_comm mx my), (Z.add_comm ex ey).
  reflexivity.
Qed.

Lemma float_mul_comm (x y : float) : x * y = y * x.
Proof. apply Prim2SF_inj. rewrite !mul_spec. apply SFmul_comm. Qed.

(** Swapping width and length changes neither the volume nor the weight,
    bit for bit.  The thickness is different: it is multiplied in last, and
    swapping it with a side can change the rounding, as for 0.1, 0.2, 0.3. *)
Theorem volume_symmetric_in_width_length (w l t d : float) :
  calculate_volume w l t = calculate_volume l w t /\
  weight_kg w l t d = weight_kg l w t d /\
  (calculate_volume 0.1 0.2 0.3 =? calculate_volume 0.1 0.3 0.2) = false.
Proof.
  unfold weight_kg, calculate_weight, calculate_volume. simpl.
  rewrite (float_mul_comm w l). repeat split.
Qed.

End Signs.

(** ** Facts about the surface, the volume and the area *)

Section Solid.

Import Normals Measure.

(** The geometry of the vertex array [create_plate] returns, read exactly,
    for all dimensions and however the mesh stores its coordinates: the
    twelve faces, with their corners in the listed order, enclose the volume
    [w * l * t] by the divergence theorem, a positive volume for positive
    dimensions, as faces wound outward must. *)
Theorem faces_enclose_the_box {C : Type} (store : Q -> C) (czero : C)
  (w l t : Q) :
  exists m vertices v,
    create_plate store czero w l t = Some (m, vertices) /\
    enclosed_volume vertices plate_faces = Some v /\
    (v == w * l * t)%Q.
Proof.
  do 3 eexists. split; [apply create_plate_value|].
  split; [reflexivity|].
  cbn. change (inject_Z 0) with 0%Q. field.
Qed.

(** The geometry of the outline of a plate, read exactly, for all
    dimensions: by the shoelace formula the four lines enclose the signed
    area [w * l], so they run counter-clockwise around the base when width
    and length are positive. *)
Theorem outline_encloses_the_base (w l t : Q) :
  exists doc a,
    outline_drawing (plate_vertices w l t) = Some doc /\
    enclosed_area doc = Some a /\
    (a == w * l)%Q.
Proof.
  do 2 eexists. split; [reflexivity|]. split; [reflexivity|].
  cbn. change (inject_Z 0) with 0%Q. field.
Qed.

(** The twelve faces form a closed surface wound one way round: each of
    the 36 directed edges belongs to exactly one face and its reverse to
    exactly one face, and each of the eight vertices is a corner of some
    face. *)
Theorem plate_faces_closed_surface :
  closed_oriented plate_faces = true /\
  List.length (directed_edges plate_faces) = 36%nat /\
  forallb (fun index => existsb (existsb (Z.eqb index)) plate_faces) (range 8)
    = true.
Proof. repeat split. Qed.

End Solid.

(** ** The facts with a precondition, on the sample run *)

Lemma set_vector_frame_witness :
  slot (mesh_zeros 0%float 2) (Z.of_nat 1) (Z.of_nat 2)
    = Some [0; 0; 0]%float /\
  List.length [1; 2; 3]%float = List.length [0; 0; 0]%float /\
  exists m',
    set_vector (fun c : float => c) (mesh_zeros 0%float 2)
      (Z.of_nat 1) (Z.of_nat 2) [1; 2; 3]%float = Some m' /\
    slot m' (Z.of_nat 1) (Z.of_nat 2)
      = Some (map (fun c : float => c) [1; 2; 3]%float) /\
    List.length (vectors m') = List.length (vectors (mesh_zeros 0%float 2)) /\
    forall i' j' : nat, (i', j') <> (1%nat, 2%nat) ->
      slot m' (Z.of_nat i') (Z.of_nat j')
      = slot (mesh_zeros 0%float 2) (Z.of_nat i') (Z.of_nat j').
Proof.
  split; [reflexivity|]. split; [reflexivity|].
  apply (set_vector_frame (fun c : float => c) (mesh_zeros 0%float 2)
           1%nat 2%nat [1; 2; 3]%float [0; 0; 0]%float); reflexivity.
Defined.

Lemma fill_mesh_gathers_witness :
  shape_n3 sample_vertices = true /\
  shape_n3 sample_faces = true /\
  faces_in_range (List.length sample_vertices) sample_faces = true /\
  fill_mesh (fun c : float => c) sample_vertices sample_faces
    (mesh_zeros 0%float (List.length sample_faces))
  = Some {| vectors :=
              map (triangle_of (fun c : float => c) sample_vertices)
                sample_faces |}.
Proof.
  split; [reflexivity|]. split; [reflexivity|]. split; [reflexivity|].
  apply (fill_mesh_gathers (fun c : float => c) 0%float
           sample_vertices sample_faces); reflexivity.
Defined.

Lemma outline_drawing_four_witness :
  ((2 <= List.length [0; 0; 0]%float)%nat /\
   (2 <= List.length [1; 0; 0]%float)%nat /\
   (2 <= List.length [1; 1; 0]%float)%nat /\
   (2 <= List.length [0; 1; 0]%float)%nat) /\
  exists s0 s1 s2 s3,
    outline_drawing sample_vertices =
      Some {| dxfversion := "R2010"; modelspace := [s0; s1; s2; s3] |} /\
    line_start s0 = firstn 2 [0; 0; 0]%float /\
    line_start s1 = firstn 2 [1; 0; 0]%float /\
    line_start s2 = firstn 2 [1; 1; 0]%float /\
    line_start s3 = firstn 2 [0; 1; 0]%float /\
    line_end s0 = line_start s1 /\ line_end s1 = line_start s2 /\
    line_end s2 = line_start s3 /\ line_end s3 = line_start s0.
Proof.
  split; [repeat split; simpl; lia|].
  apply (outline_drawing_four [0; 0; 0]%float [1; 0; 0]%float
           [1; 1; 0]%float [0; 1; 0]%float []); simpl; lia.
Defined.

Lemma outline_drawing_reads_only_witness :
  map (firstn 2) (firstn 4 (plate_vertices 100 50 10)%float)
    = map (firstn 2) (firstn 4 (plate_vertices 100 50 20)%float) /\
  outline_drawing (plate_vertices 100 50 10)%float
    = outline_drawing (plate_vertices 100 50 20)%float.
Proof.
  split; [reflexivity|].
  apply (outline_drawing_reads_only (plate_vertices 100 50 10)%float
           (plate_vertices 100 50 20)%float).
  reflexivity.
Defined.

Lemma create_dxf_writes_only_witness :
  create_dxf_from_numpy sample_vertices "outline.dxf" (disk sample_app)
    = Some (write_file "outline.dxf"
              (DxfFile
                 {| dxfversion := "R2010";
                    modelspace :=
                      [ {| line_start := [0; 0]; line_end := [1; 0] |};
                        {| line_start := [1; 0]; line_end := [1; 1] |};
                        {| line_start := [1; 1]; line_end := [0; 1] |};
                        {| line_start := [0; 1]; line_end := [0; 0] |} ]%float |})
              (disk sample_app)) /\
  (exists doc,
     outline_drawing sample_vertices = Some doc /\
     read_file "outline.dxf"
       (write_file "outline.dxf"
          (DxfFile
             {| dxfversion := "R2010";
                modelspace :=
                  [ {| line_start := [0; 0]; line_end := [1; 0] |};
                    {| line_start := [1; 0]; line_end := [1; 1] |};
                    {| line_start := [1; 1]; line_end := [0; 1] |};
                    {| line_start := [0; 1]; line_end := [0; 0] |} ]%float |})
          (disk sample_app))
     = Some (DxfFile doc)) /\
  (forall other, other <> "outline.dxf"%string ->
     read_file other
       (write_file "outline.dxf"
          (DxfFile
             {| dxfversion := "R2010";
                modelspace :=
                  [ {| line_start := [0; 0]; line_end := [1; 0] |};
                    {| line_start := [1; 0]; line_end := [1; 1] |};
                    {| line_start := [1; 1]; line_end := [0; 1] |};
                    {| line_start := [0; 1]; line_end := [0; 0] |} ]%float |})
          (disk sample_app))
     = read_file other (disk sample_app)).
Proof.
  split; [reflexivity|].
  apply (create_dxf_writes_only sample_vertices "outline.dxf"
           (disk sample_app)).
  reflexivity.
Defined.

Lemma on_generate_effects_witness :
  on_generate (fun c : float => c) 0%float sample_inputs app_start
    = Some sample_app /\
  exists m vertices doc,
    create_plate (fun c : float => c) 0%float (in_width sample_inputs)
      (in_length sample_inputs) (in_thickness sample_inputs)
      = Some (m, vertices) /\
    outline_drawing vertices = Some doc /\
    session_plate_mesh sample_app = Some m /\
    read_file "chapa.stl" (disk sample_app) = Some (StlFile m) /\
    read_file "chapa.dxf" (disk sample_app) = Some (DxfFile doc) /\
    (forall other, other <> "chapa.stl"%string -> other <> "chapa.dxf"%string ->
       read_file other (disk sample_app) = read_file other (disk app_start)).
Proof.
  split; [reflexivity|].
  apply (on_generate_effects (fun c : float => c) 0%float sample_inputs
           app_start sample_app).
  reflexivity.
Defined.

Lemma on_generate_idempotent_witness :
  on_generate (fun c : float => c) 0%float sample_inputs app_start
    = Some sample_app /\
  on_generate (fun c : float => c) 0%float sample_inputs sample_app
    = Some sample_app.
Proof.
  split; [reflexivity|].
  apply (on_generate_idempotent (fun c : float => c) 0%float sample_inputs
           app_start sample_app).
  reflexivity.
Defined.

Lemma mesh_to_plotly_flattens_witness :
  (0 <=? 1)%float = true /\
  (1 <=? 1)%float = true /\
  shape_n33 (vectors (mesh_zeros 0%float 2)) = true /\
  exists fig trace,
    mesh_to_plotly (mesh_zeros 0%float 2) 1%float = Some fig /\
    data fig = [trace] /\
    opacity trace = 1%float /\
    rows_of_columns (mesh_x trace) (mesh_y trace) (mesh_z trace)
      = reshape_rows (vectors (mesh_zeros 0%float 2)) /\
    List.length (mesh_x trace)
      = (3 * List.length (vectors (mesh_zeros 0%float 2)))%nat /\
    List.length (mesh_y trace)
      = (3 * List.length (vectors (mesh_zeros 0%float 2)))%nat /\
    List.length (mesh_z trace)
      = (3 * List.length (vectors (mesh_zeros 0%float 2)))%nat /\
    mesh_i trace
      = map (fun q => 3 * Z.of_nat q)
          (seq 0 (List.length (vectors (mesh_zeros 0%float 2)))) /\
    mesh_j trace
      = map (fun q => 3 * Z.of_nat q + 1)
          (seq 0 (List.length (vectors (mesh_zeros 0%float 2)))) /\
    mesh_k trace
      = map (fun q => 3 * Z.of_nat q + 2)
          (seq 0 (List.length (vectors (mesh_zeros 0%float 2)))) /\
    Forall (fun index => 0 <= index < Z.of_nat (List.length (mesh_x trace)))
      (mesh_i trace ++ mesh_j trace ++ mesh_k trace).
Proof.
  split; [reflexivity|]. split; [reflexivity|]. split; [reflexivity|].
  apply (mesh_to_plotly_flattens (mesh_zeros 0%float 2) 1%float);
    reflexivity.
Defined.

Lemma page_shows_the_session_witness :
  session_matches_disk (fun c : float => c) 0%float sample_app /\
  exists page,
    run_script (fun c : float => c) 0%float sample_inputs false sample_app
      = Some (sample_app, page) /\
    page_message page = None /\
    match session_plate_mesh sample_app with
    | None => page_chart page = None /\ page_downloads page = []
    | Some m =>
        (exists fig, mesh_to_plotly m (in_opacity sample_inputs) = Some fig /\
                     page_chart page = Some fig) /\
        exists doc,
          map (fun d => (dl_file_name d, dl_data d)) (page_downloads page)
          = [ ("chapa.stl"%string, StlFile m);
              ("chapa.dxf"%string, DxfFile doc) ]
    end.
Proof.
  assert (Hinv : session_matches_disk (fun c : float => c) 0%float sample_app).
  { split; [|split].
    - exists 100%float, 50%float, 10%float. reflexivity.
    - reflexivity.
    - eexists. reflexivity. }
  split; [exact Hinv|].
  apply (page_shows_the_session (fun c : float => c) 0%float sample_inputs
           sample_app Hinv).
Defined.

Lemma run_session_safe_witness :
  Forall (fun event => snd event = true ->
            In (in_steel_type (fst event)) (dict_keys steel_types))
    [ (sample_inputs, true); (sample_inputs, false) ] /\
  exists app,
    run_session (fun c : float => c) 0%float
      [ (sample_inputs, true); (sample_inputs, false) ] app_start = Some app /\
    session_matches_disk (fun c : float => c) 0%float app.
Proof.
  assert (Hev : Forall (fun event => snd event = true ->
                          In (in_steel_type (fst event)) (dict_keys steel_types))
                  [ (sample_inputs, true); (sample_inputs, false) ]).
  { repeat constructor; simpl; intros _; tauto. }
  split; [exact Hev|].
  apply (run_session_safe (fun c : float => c) 0%float
           [ (sample_inputs, true); (sample_inputs, false) ] Hev).
Defined.

Lemma weight_never_negative_witness :
  ((0 <=? 100) = true /\ (0 <=? 50) = true /\ (0 <=? 10) = true /\
   (0 <=? 7.85) = true)%float /\
  (calculate_volume 100 50 10 <? 0)%float = false /\
  (calculate_weight (calculate_volume 100 50 10) 7.85 <? 0)%float = false /\
  (weight_kg 100 50 10 7.85 <? 0)%float = false.
Proof.
  split; [repeat split|].
  apply (weight_never_negative 100 50 10 7.85)%float; reflexivity.
Defined.
